(** * XCom: the cross-task value exchange of [airflow/orm/xcom.py]

    A shallow embedding of the [XCom] model class and its four class
    methods ([set], [get_one], [get_many], [delete]) together with the
    [init_on_load] reconstructor, followed by the properties of the
    exchange store that can be established on them.

    Layout:
    - [Py]      : Python exceptions, results, truthiness, and the interface
                  of the library functions the file calls;
    - [Orm]     : the mapped table, the SQLAlchemy session the methods
                  receive, and the state-and-exception monad they run in;
    - [XCom]    : the model class, translated method by method;
    - [CPython] : an instance of the interface ([json], [pickle], UTF-8)
                  on a fragment of Python values, to run the methods on
                  concrete inputs;
    - the properties, and the methods run on concrete inputs. *)

From Stdlib Require Import ZArith List String Ascii Strings.Byte Bool Lia.
From Stdlib Require Import Sorted Permutation DecimalString.
Import ListNotations.

Local Open Scope string_scope.
Local Open Scope list_scope.
Local Open Scope Z_scope.

(* ================================================================== *)
(** * Python: exceptions, results, and the library interface *)
(* ================================================================== *)

Module Py.

(** The exception classes that can reach the code of [xcom.py].
    [UnicodeDecodeError], [UnicodeEncodeError] and [JSONDecodeError] are
    subclasses of [ValueError]; the others are unrelated to it. *)
Inductive exn : Type :=
| TypeError (msg : string)
| ValueError (msg : string)
| UnicodeDecodeError (msg : string)
| UnicodeEncodeError (msg : string)
| JSONDecodeError (msg : string)
| PicklingError (msg : string)
| UnpicklingError (msg : string)
| DatabaseError (msg : string).

(** [isinstance(e, ValueError)]: what an [except ValueError] clause
    catches. *)
Definition isinstance_ValueError (e : exn) : bool :=
  match e with
  | ValueError _ | UnicodeDecodeError _
  | UnicodeEncodeError _ | JSONDecodeError _ => true
  | _ => false
  end.

(** [isinstance(e, UnicodeEncodeError)]. *)
Definition isinstance_UnicodeEncodeError (e : exn) : bool :=
  match e with
  | UnicodeEncodeError _ => true
  | _ => false
  end.

(** The outcome of evaluating an expression: a value, or a raised
    exception. *)
Inductive result (A : Type) : Type :=
| Ok (a : A)
| Raise (e : exn).

Arguments Ok {A} a.
Arguments Raise {A} e.

Definition rbind {A B : Type} (r : result A) (k : A -> result B) : result B :=
  match r with
  | Ok a => k a
  | Raise e => Raise e
  end.

(** [try: body except <classes>: handler]. *)
Definition rtry {A : Type} (body : result A) (caught : exn -> bool)
    (handler : exn -> result A) : result A :=
  match body with
  | Ok a => Ok a
  | Raise e => if caught e then handler e else Raise e
  end.

(** Evaluate [f] on the elements of a list from left to right, stopping at
    the first exception. *)
Fixpoint rmap {A B : Type} (f : A -> result B) (l : list A) : result (list B) :=
  match l with
  | [] => Ok []
  | a :: l' =>
      match f a with
      | Ok b =>
          match rmap f l' with
          | Ok bs => Ok (b :: bs)
          | Raise e => Raise e
          end
      | Raise e => Raise e
      end
  end.

(** Python truthiness of a string: the empty string is falsy. *)
Definition truthy_str (s : string) : bool :=
  match s with
  | EmptyString => false
  | String _ _ => true
  end.

(** Truthiness of a list (or tuple): the empty collection is falsy. *)
Definition truthy_list {A : Type} (l : list A) : bool :=
  match l with
  | [] => false
  | _ :: _ => true
  end.

(** A byte string ([bytes], the content of a [LargeBinary] column). *)
Definition bytes : Type := list byte.

(** The part of the interpreter and its standard library that [xcom.py]
    calls: the objects tasks exchange, [str], and the functions
    [pickle.dumps], [pickle.loads], [json.dumps], [json.loads],
    [str.encode('UTF-8')] and [bytes.decode('UTF-8')]. Each may raise. *)
Class Runtime : Type := {
  object : Type;
  str : Type;
  None_ : object;
  pickle_dumps : object -> result bytes;
  pickle_loads : bytes -> result object;
  json_dumps : object -> result str;
  json_loads : str -> result object;
  encode_utf8 : str -> result bytes;
  decode_utf8 : bytes -> result str
}.

End Py.

Export Py.

(* ================================================================== *)
(** * The mapped table and the SQLAlchemy session *)
(* ================================================================== *)

Module Orm.

(** The columns of table [xcom] (lines 25-34). A stored row carries the
    serialized payload ([V := bytes]); an [XCom] object loaded through the
    mapper carries what [init_on_load] made of it ([V := object]).
    Instants ([UtcDateTime]) are integers on the time line. The length
    bounds of the [String] columns are not modelled. *)
Record XCom (V : Type) : Type := mkXCom {
  id : Z;
  key : string;
  value : V;
  timestamp : Z;
  execution_date : Z;
  task_id : string;
  dag_id : string
}.

Arguments mkXCom {V}.
Arguments id {V}.
Arguments key {V}.
Arguments value {V}.
Arguments timestamp {V}.
Arguments execution_date {V}.
Arguments task_id {V}.
Arguments dag_id {V}.

Definition Row : Type := XCom bytes.

(** [XCom(key=..., value=..., execution_date=..., task_id=..., dag_id=...)]:
    a transient object; [id] and [timestamp] are assigned by the INSERT. *)
Record Transient : Type := mkTransient {
  t_key : string;
  t_value : bytes;
  t_execution_date : Z;
  t_task_id : string;
  t_dag_id : string
}.

(** The database engines Airflow is run on. They differ here in two
    respects: the [id] an inserted row receives (see [assign_id]) and the
    meaning of a negative LIMIT (see [limit]). *)
Inductive Dialect : Type := SQLite | PostgreSQL | MySQL.

(** A session bound to the [xcom] table.
    - [table]: the committed rows, in insertion order;
    - [txn]: the rows as the session's open transaction sees them;
    - [new], [deleted]: the unit of work, objects registered with
      [session.add] and [session.delete] and not flushed yet;
    - [next_id]: the next value of the primary-key counter of PostgreSQL
      (SERIAL) and MySQL (AUTO_INCREMENT); SQLite keeps no counter for an
      INTEGER PRIMARY KEY and ignores the field.
    Airflow creates its sessions with [autoflush=False]: a query does not
    flush the unit of work. The objects a session has loaded and keeps
    without a pending change (its identity map) are not part of the
    record: the read methods are modelled for a session that has loaded
    none of the rows they select, which is what [provide_session] opens
    for a call and what [expunge_all] leaves. *)
Record Session : Type := mkSession {
  dialect : Dialect;
  table : list Row;
  txn : list Row;
  new : list Transient;
  deleted : list Z;
  next_id : Z
}.

(** The INSERT of one pending object: the engine gives the [id], the
    column default [timezone.utcnow] the [timestamp]. *)
Definition insert_row (now : Z) (i : Z) (t : Transient) : Row :=
  mkXCom i (t_key t) (t_value t) now (t_execution_date t)
         (t_task_id t) (t_dag_id t).

(** The largest [id] in use, if there is a row. *)
Fixpoint max_id (rows : list Row) : option Z :=
  match rows with
  | [] => None
  | r :: rows' =>
      match max_id rows' with
      | Some m => Some (Z.max (id r) m)
      | None => Some (id r)
      end
  end.

(** The [id] of the next inserted row, and the counter after the INSERT.
    [id = Column(Integer, primary_key=True)] (line 27) is a plain
    INTEGER PRIMARY KEY on SQLite: the row gets one more than the largest
    [id] in the table, 1 in an empty table, so that the [id] of a deleted
    last row is given out again. PostgreSQL and MySQL draw the [id] from
    a counter that does not go back. *)
Definition assign_id (d : Dialect) (rows : list Row) (counter : Z) : Z * Z :=
  match d with
  | SQLite =>
      (match max_id rows with Some m => m + 1 | None => 1 end, counter)
  | PostgreSQL | MySQL => (counter, counter + 1)
  end.

(** The pending INSERTs, one after the other: the rows and the counter
    they leave. *)
Fixpoint insert_rows (d : Dialect) (now : Z) (rows : list Row) (counter : Z)
    (ts : list Transient) : list Row * Z :=
  match ts with
  | [] => (rows, counter)
  | t :: ts' =>
      let (i, counter') := assign_id d rows counter in
      insert_rows d now (rows ++ [insert_row now i t]) counter' ts'
  end.

Definition mem_id (i : Z) (ids : list Z) : bool :=
  existsb (Z.eqb i) ids.

(** [session.flush()]: the pending INSERTs, then the pending DELETEs (by
    primary key), inside the open transaction. [now] is the clock at the
    time of the flush. *)
Definition flush (now : Z) (s : Session) : Session :=
  let (rows, counter) :=
    insert_rows (dialect s) now (txn s) (next_id s) (new s) in
  mkSession (dialect s) (table s)
    (filter (fun r => negb (mem_id (id r) (deleted s))) rows)
    [] []
    counter.

(** [session.commit()]: flush, then publish the transaction. *)
Definition commit (now : Z) (s : Session) : Session :=
  let s' := flush now s in
  mkSession (dialect s') (txn s') (txn s') (new s') (deleted s') (next_id s').

(** [session.expunge_all()]: every object leaves the session, the pending
    and the deleted ones included; the database is not touched. *)
Definition expunge_all (s : Session) : Session :=
  mkSession (dialect s) (table s) (txn s) [] [] (next_id s).

(** [session.add(obj)]. *)
Definition add (t : Transient) (s : Session) : Session :=
  mkSession (dialect s) (table s) (txn s) (new s ++ [t]) (deleted s)
            (next_id s).

(** [session.delete(obj)]: marks a loaded object for deletion at the next
    flush. *)
Definition session_delete {V : Type} (x : XCom V) (s : Session) : Session :=
  mkSession (dialect s) (table s) (txn s) (new s)
            (deleted s ++ [id x]) (next_id s).

(** [session.query(cls).filter(p).delete()]: a bulk DELETE, executed at
    once inside the open transaction. *)
Definition query_delete (p : Row -> bool) (s : Session) : Session :=
  mkSession (dialect s) (table s)
            (filter (fun r => negb (p r)) (txn s))
            (new s) (deleted s) (next_id s).

(** [query.limit(n)]: the LIMIT clause applied to an ordered result. A
    non-negative [n] keeps the first [n] rows. The code hands a negative
    [n] to the engine as it is: SQLite reads it as "no bound", PostgreSQL
    and MySQL reject the statement. *)
Definition limit (d : Dialect) (n : Z) (rows : list Row) : result (list Row) :=
  if 0 <=? n then Ok (firstn (Z.to_nat n) rows)
  else
    match d with
    | SQLite => Ok rows
    | PostgreSQL => Raise (DatabaseError "LIMIT must not be negative")
    | MySQL => Raise (DatabaseError "You have an error in your SQL syntax")
    end.

(** [query.first()]: the first row of the ordered result, or [None]. *)
Definition first {A : Type} (rows : list A) : option A := hd_error rows.

(** The column expressions the read methods append to [filters]. *)
Inductive criterion : Type :=
| key_eq (k : string)
| task_id_eq (t : string)
| dag_id_eq (d : string)
| task_id_in (ts : list string)
| dag_id_in (ds : list string)
| execution_date_le (e : Z)
| execution_date_eq (e : Z).

Definition holds (c : criterion) (r : Row) : bool :=
  match c with
  | key_eq k => String.eqb (key r) k
  | task_id_eq t => String.eqb (task_id r) t
  | dag_id_eq d => String.eqb (dag_id r) d
  | task_id_in ts => existsb (String.eqb (task_id r)) ts
  | dag_id_in ds => existsb (String.eqb (dag_id r)) ds
  | execution_date_le e => execution_date r <=? e
  | execution_date_eq e => execution_date r =? e
  end.

(** [and_( *filters )]. *)
Definition and_ (filters : list criterion) (r : Row) : bool :=
  forallb (fun c => holds c r) filters.

(** The SELECT statements the read methods send: the [value] column of
    the first row ([query(cls.value)...first()], lines 142-146), or the
    mapped entity with a LIMIT ([query(cls)...limit(limit)], lines
    189-192). Both carry the WHERE clause [and_( *filters )] and the same
    ORDER BY. *)
Inductive statement : Type :=
| select_value_first (filters : list criterion)
| select_xcom_limit (filters : list criterion) (limit : Z).

(** The part of the database engine a sorted SELECT depends on beyond
    the rows: the order in which the engine comes across the rows that
    satisfy the WHERE clause of a statement. It is the engine's choice
    (storage order, an index, the plan for this statement); all that is
    known of it is that it hands over the same rows. *)
Class Engine : Type := {
  arrange : statement -> list Row -> list Row;
  arrange_permutation : forall q rows, Permutation rows (arrange q rows)
}.

(** The lexicographic comparison behind
    [order_by(execution_date.desc(), timestamp.desc())]: [a] may stand
    before [b]. *)
Definition desc_before (a b : Row) : bool :=
  (execution_date b <? execution_date a)
  || ((execution_date b =? execution_date a)
      && (timestamp b <=? timestamp a)).

Fixpoint insert_desc (a : Row) (l : list Row) : list Row :=
  match l with
  | [] => [a]
  | b :: l' => if desc_before a b then a :: l else b :: insert_desc a l'
  end.

(** The ORDER BY of the two read methods, applied to the rows as the
    engine hands them over (see [arrange]). The sort is stable: SQL
    leaves the relative order of rows with equal
    [(execution_date, timestamp)] to the engine, and so does this. *)
Definition order_by (rows : list Row) : list Row :=
  fold_right insert_desc [] rows.

(** ** The state a method runs in *)

Inductive levelname : Type := ERROR | WARNING | INFO.

(** The session argument of the method and the records the logging
    framework has received. *)
Record World : Type := mkWorld {
  session : Session;
  log : list (levelname * string)
}.

(** A method body: it returns or raises, and leaves a world behind in
    both cases. *)
Definition M (A : Type) : Type := World -> result A * World.

Definition ret {A : Type} (a : A) : M A := fun w => (Ok a, w).

Definition raise {A : Type} (e : exn) : M A := fun w => (Raise e, w).

Definition bind {A B : Type} (m : M A) (k : A -> M B) : M B :=
  fun w =>
    match m w with
    | (Ok a, w') => k a w'
    | (Raise e, w') => (Raise e, w')
    end.

(** An expression without effect on the world. *)
Definition eval {A : Type} (r : result A) : M A := fun w => (r, w).

(** [try: body except <classes> : handler]. *)
Definition try_except {A : Type} (body : M A) (caught : exn -> bool)
    (handler : exn -> M A) : M A :=
  fun w =>
    match body w with
    | (Ok a, w') => (Ok a, w')
    | (Raise e, w') => if caught e then handler e w' else (Raise e, w')
    end.

(** A statement on the session. *)
Definition on_session (f : Session -> Session) : M unit :=
  fun w => (Ok tt, mkWorld (f (session w)) (log w)).

(** [log.error(msg)]. *)
Definition log_error (msg : string) : M unit :=
  fun w => (Ok tt, mkWorld (session w) (log w ++ [(ERROR, msg)])).

End Orm.

Export Orm.

Declare Scope py_scope.
Delimit Scope py_scope with py.
Notation "x <- m ;; k" := (bind m (fun x => k))
  (at level 61, m at next level, right associativity) : py_scope.
Notation "m ;; k" := (bind m (fun _ => k))
  (at level 61, right associativity) : py_scope.

Local Open Scope py_scope.

(* ================================================================== *)
(** * class XCom *)
(* ================================================================== *)

Module XCom.

Section Methods.

Context {py : Runtime} {db : Engine}.

(** ** Filter expressions *)

(** An optional string argument ([key], [task_id], [dag_id]): [None] is
    the default [None] of the signature. *)
Definition truthy (arg : option string) : bool :=
  match arg with
  | Some s => truthy_str s
  | None => false
  end.

(** What [get_many] accepts for [task_ids] and [dag_ids]: one identifier
    or a collection of identifiers. *)
Inductive ids : Type :=
| one_id (s : string)
| many_ids (l : list string).

Definition truthy_ids (arg : option ids) : bool :=
  match arg with
  | Some (one_id s) => truthy_str s
  | Some (many_ids l) => truthy_list l
  | None => false
  end.

(** Modelled from the spec: [airflow.utils.helpers.as_tuple], imported at
    line 14 and not part of this file. The spec says of [task_ids] and
    [dag_ids] that each accepts "a single identifier or a collection of
    identifiers (membership test rather than equality)": a single
    identifier becomes the one-element tuple, a collection its tuple. *)
Definition as_tuple (x : ids) : list string :=
  match x with
  | one_id s => [s]
  | many_ids l => l
  end.

(** [if arg: filters.append(c(arg))], as the list of what is appended. *)
Definition append_if {A : Type} (truth : option A -> bool) (arg : option A)
    (c : A -> criterion) : list criterion :=
  match arg with
  | Some a => if truth arg then [c a] else []
  | None => []
  end.

(** The [filters] list of [get_one] (lines 130-140). *)
Definition get_one_filters (execution_date : Z)
    (key task_id dag_id : option string) (include_prior_dates : bool)
    : list criterion :=
  let filters := [] in
  let filters := filters ++ append_if truthy key key_eq in
  let filters := filters ++ append_if truthy task_id task_id_eq in
  let filters := filters ++ append_if truthy dag_id dag_id_eq in
  if include_prior_dates
  then filters ++ [execution_date_le execution_date]
  else filters ++ [execution_date_eq execution_date].

(** The [filters] list of [get_many] (lines 177-187). *)
Definition get_many_filters (execution_date : Z) (key : option string)
    (task_ids dag_ids : option ids) (include_prior_dates : bool)
    : list criterion :=
  let filters := [] in
  let filters := filters ++ append_if truthy key key_eq in
  let filters :=
    filters ++ append_if truthy_ids task_ids
                 (fun x => task_id_in (as_tuple x)) in
  let filters :=
    filters ++ append_if truthy_ids dag_ids
                 (fun x => dag_id_in (as_tuple x)) in
  if include_prior_dates
  then filters ++ [execution_date_le execution_date]
  else filters ++ [execution_date_eq execution_date].

(** ** Serialization *)

Definition with_value {V W : Type} (self : XCom V) (v : W) : XCom W :=
  mkXCom (id self) (key self) v (timestamp self) (execution_date self)
         (task_id self) (dag_id self).

(** [json.dumps(value).encode('UTF-8')]. *)
Definition json_encode (value : object) : result bytes :=
  rbind (json_dumps value) encode_utf8.

(** [json.loads(b.decode('UTF-8'))]. *)
Definition json_decode (b : bytes) : result object :=
  rbind (decode_utf8 b) json_loads.

(** The reconstructor (lines 44-56), run by the mapper on every [XCom]
    object it loads. [enable_pickling] is what
    [configuration.getboolean('core', 'enable_xcom_pickling')] returns at
    that moment. *)
Definition init_on_load (enable_pickling : bool) (self : Row)
    : result (XCom object) :=
  if enable_pickling then
    rbind (pickle_loads (value self)) (fun v => Ok (with_value self v))
  else
    rtry (rbind (json_decode (value self))
                (fun v => Ok (with_value self v)))
         (fun e => isinstance_UnicodeEncodeError e || isinstance_ValueError e)
         (fun _ =>
            rbind (pickle_loads (value self))
                  (fun v => Ok (with_value self v))).

Definition could_not_serialize : string :=
  ("Could not serialize the XCOM value into JSON. " ++
   "If you are using pickles instead of JSON " ++
   "for XCOM, then you need to enable pickle " ++
   "support for XCOM in your airflow config.")%string.

Definition could_not_deserialize : string :=
  ("Could not deserialize the XCOM value from JSON. " ++
   "If you are using pickles instead of JSON " ++
   "for XCOM, then you need to enable pickle " ++
   "support for XCOM in your airflow config.")%string.

(** The encoding step of [set] (lines 82-94). *)
Definition encode (enable_pickling : bool) (value : object) : M bytes :=
  if enable_pickling then
    eval (pickle_dumps value)
  else
    try_except (eval (json_encode value)) isinstance_ValueError
      (fun e => log_error could_not_serialize ;; raise e).

(** The decoding step of [get_one] (lines 148-160), applied to the
    [value] column of the selected row. *)
Definition decode (enable_pickling : bool) (b : bytes) : M object :=
  if enable_pickling then
    eval (pickle_loads b)
  else
    try_except (eval (json_decode b)) isinstance_ValueError
      (fun e => log_error could_not_deserialize ;; raise e).

(** ** The class methods *)

(** The four columns compared by the duplicate removal of [set]. *)
Definition same_slot (key : string) (execution_date : Z)
    (task_id dag_id : string) (r : Row) : bool :=
  String.eqb (Orm.key r) key
  && (Orm.execution_date r =? execution_date)
  && String.eqb (Orm.task_id r) task_id
  && String.eqb (Orm.dag_id r) dag_id.

(** [XCom.set] (lines 64-113). [now] is the clock when the new row is
    inserted. *)
Definition set (enable_pickling : bool) (now : Z)
    (key : string) (value : object) (execution_date : Z)
    (task_id dag_id : string) : M unit :=
  on_session expunge_all ;;
  value <- encode enable_pickling value ;;
  (* remove any duplicate XComs *)
  on_session (query_delete (same_slot key execution_date task_id dag_id)) ;;
  on_session (commit now) ;;
  (* insert new XCom *)
  on_session (add (mkTransient key value execution_date task_id dag_id)) ;;
  on_session (commit now).

(** The rows that satisfy the [filters] of [get_one], in table order. *)
Definition get_one_candidates (execution_date : Z)
    (key task_id dag_id : option string) (include_prior_dates : bool)
    (s : Session) : list Row :=
  filter
    (and_ (get_one_filters execution_date key task_id dag_id
                           include_prior_dates))
    (txn s).

(** The [query] of [get_one] (lines 142-144), as the rows it ranges over;
    the method reads their [value] column. *)
Definition get_one_query (execution_date : Z)
    (key task_id dag_id : option string) (include_prior_dates : bool)
    (s : Session) : list Row :=
  let filters :=
    get_one_filters execution_date key task_id dag_id include_prior_dates in
  order_by
    (arrange (select_value_first filters)
       (get_one_candidates execution_date key task_id dag_id
                           include_prior_dates s)).

(** [XCom.get_one] (lines 115-160). The query selects the [value] column
    only, so no [XCom] object is loaded and [init_on_load] does not run;
    without a row the method falls off its end and returns [None]. *)
Definition get_one (enable_pickling : bool) (execution_date : Z)
    (key task_id dag_id : option string) (include_prior_dates : bool)
    : M object :=
  fun w =>
    let query :=
      map value
        (get_one_query execution_date key task_id dag_id
                       include_prior_dates (session w)) in
    match first query with
    | Some result => decode enable_pickling result w
    | None => (Ok None_, w)
    end.

(** The rows that satisfy the [filters] of [get_many], in table order. *)
Definition get_many_candidates (execution_date : Z) (key : option string)
    (task_ids dag_ids : option ids) (include_prior_dates : bool)
    (s : Session) : list Row :=
  filter
    (and_ (get_many_filters execution_date key task_ids dag_ids
                            include_prior_dates))
    (txn s).

(** The rows of [get_many] in the order of its [order_by] (lines
    189-191), before the LIMIT cuts them. *)
Definition get_many_ordered (execution_date : Z) (key : option string)
    (task_ids dag_ids : option ids) (include_prior_dates : bool)
    (limit : Z) (s : Session) : list Row :=
  let filters :=
    get_many_filters execution_date key task_ids dag_ids
                     include_prior_dates in
  order_by
    (arrange (select_xcom_limit filters limit)
       (get_many_candidates execution_date key task_ids dag_ids
                            include_prior_dates s)).

(** The [query] of [get_many] (lines 189-192). *)
Definition get_many_query (execution_date : Z) (key : option string)
    (task_ids dag_ids : option ids) (include_prior_dates : bool)
    (limit : Z) (s : Session) : result (list Row) :=
  Orm.limit (dialect s) limit
    (get_many_ordered execution_date key task_ids dag_ids
                      include_prior_dates limit s).

(** [XCom.get_many] (lines 162-194). The query selects the entity, so
    [query.all()] passes every row it returns through [init_on_load]:
    the session is one that has loaded none of these rows before (see
    [Session]). *)
Definition get_many (enable_pickling : bool) (execution_date : Z)
    (key : option string) (task_ids dag_ids : option ids)
    (include_prior_dates : bool) (limit : Z) : M (list (XCom object)) :=
  fun w =>
    let query :=
      get_many_query execution_date key task_ids dag_ids
                     include_prior_dates limit (session w) in
    let results := rbind query (rmap (init_on_load enable_pickling)) in
    (results, w).

(** An element of the argument of [delete]: an [XCom] object, or an
    object of another class, of which the error message uses the class
    name. *)
Inductive element : Type :=
| an_xcom (x : XCom object)
| an_object (class_name : string).

(** The argument of [delete]: one [XCom] or an iterable. *)
Inductive xcoms_arg : Type :=
| single (x : XCom object)
| iterable (l : list element).

(** The [for] loop of [delete] (lines 201-206). *)
Fixpoint delete_loop (xcoms : list element) : M unit :=
  match xcoms with
  | [] => ret tt
  | an_object class_name :: _ =>
      raise (TypeError ("Expected XCom; received " ++ class_name)%string)
  | an_xcom xcom :: rest =>
      on_session (session_delete xcom) ;; delete_loop rest
  end.

(** [XCom.delete] (lines 196-207). [now] is the clock at the commit. *)
Definition delete (now : Z) (xcoms : xcoms_arg) : M unit :=
  let xcoms :=
    match xcoms with
    | single x => [an_xcom x]
    | iterable l => l
    end in
  delete_loop xcoms ;;
  on_session (commit now).

(** ** Notions used to state the properties *)

(** [a] may stand before [b] in a result ordered by [execution_date]
    descending, then [timestamp] descending. *)
Definition precedes {V W : Type} (a : XCom V) (b : XCom W) : Prop :=
  execution_date b < execution_date a
  \/ (execution_date b = execution_date a /\ timestamp b <= timestamp a).

(** The columns of a record other than its payload. *)
Definition columns {V : Type} (x : XCom V) : XCom unit := with_value x tt.

(** What the serialization policy makes of a value, and of a payload,
    leaving the log aside. *)
Definition encoded (enable_pickling : bool) (value : object) : result bytes :=
  if enable_pickling then pickle_dumps value else json_encode value.

Definition decoded (enable_pickling : bool) (b : bytes) : result object :=
  if enable_pickling then pickle_loads b else json_decode b.

(** The libraries read back as [value] what they write for it under the
    given policy: [pickle.loads] the output of [pickle.dumps]; or
    [bytes.decode] the output of [str.encode] and [json.loads] the output
    of [json.dumps]. *)
Definition reads_back (enable_pickling : bool) (value : object) : Prop :=
  if enable_pickling then
    forall b, pickle_dumps value = Ok b -> pickle_loads b = Ok value
  else
    forall s b,
      json_dumps value = Ok s -> encode_utf8 s = Ok b ->
      decode_utf8 b = Ok s /\ json_loads s = Ok value.

(** One call of [set] on a given slot: the configuration flag and the
    clock at the time of the call, and the value written. *)
Record write : Type := mkWrite {
  w_pickling : bool;
  w_now : Z;
  w_value : object
}.

(** Successive calls of [set] with one natural key. *)
Fixpoint set_all (key : string) (execution_date : Z) (task_id dag_id : string)
    (ws : list write) : M unit :=
  match ws with
  | [] => ret tt
  | w :: ws' =>
      set (w_pickling w) (w_now w) key (w_value w) execution_date
          task_id dag_id ;;
      set_all key execution_date task_id dag_id ws'
  end.

(** The class name in the [TypeError] of [delete]: that of the first
    element that is not an [XCom]. *)
Fixpoint first_non_xcom (l : list element) : option string :=
  match l with
  | [] => None
  | an_object class_name :: _ => Some class_name
  | an_xcom _ :: rest => first_non_xcom rest
  end.

(** The primary keys [delete] has handed to [session.delete] when its
    loop ends or raises: those of the [XCom] elements that stand before
    the first element that is not an [XCom]. *)
Fixpoint marked (l : list element) : list Z :=
  match l with
  | an_xcom x :: rest => id x :: marked rest
  | _ => []
  end.

End Methods.

End XCom.

(* ================================================================== *)
(** * A concrete interpreter on a fragment of Python values *)
(* ================================================================== *)

(** The methods above are parametric in the [Runtime]. To run them, this
    module gives an instance covering [None], [bool], [int], [bytes],
    [list] and [tuple], with [json], UTF-8 and [pickle] (protocol 3, the
    default up to Python 3.7) as CPython 3.7 computes them on these
    values. JSON texts that denote values outside the fragment (strings,
    objects, floats) are not recognised by [json_loads] here, and the
    messages of the exceptions are shortened. *)

Module CPython.

#[warnings="-register-all"]
Inductive pyobj : Type :=
| PyNone
| PyBool (b : bool)
| PyInt (n : Z)
| PyBytes (b : bytes)
| PyList (items : list pyobj)
| PyTuple (items : list pyobj).

Definition bytes_eqb (x y : bytes) : bool :=
  if list_eq_dec Byte.byte_eq_dec x y then true else false.

(** Python's [==] on the fragment: [bool] is a subclass of [int]
    ([True == 1]); a list never equals a tuple. *)
Fixpoint py_eq (a b : pyobj) : bool :=
  let fix all_eq (xs ys : list pyobj) : bool :=
    match xs, ys with
    | [], [] => true
    | x :: xs', y :: ys' => py_eq x y && all_eq xs' ys'
    | _, _ => false
    end in
  match a, b with
  | PyNone, PyNone => true
  | PyBool x, PyBool y => Bool.eqb x y
  | PyBool x, PyInt n => (if x then 1 else 0) =? n
  | PyInt n, PyBool x => n =? (if x then 1 else 0)
  | PyInt m, PyInt n => m =? n
  | PyBytes x, PyBytes y => bytes_eqb x y
  | PyList xs, PyList ys => all_eq xs ys
  | PyTuple xs, PyTuple ys => all_eq xs ys
  | _, _ => false
  end.

(** A [str]: its code points. *)
Definition text : Type := list N.

Definition text_of_string (s : string) : text :=
  map N_of_ascii (list_ascii_of_string s).

Definition byte_of_N (n : N) : byte :=
  match Byte.of_N (n mod 256) with
  | Some b => b
  | None => x00
  end.

(** ** UTF-8 *)

Local Open Scope N_scope.

(** [str.encode('UTF-8')] of one code point. *)
Definition utf8_of_code_point (c : N) : result bytes :=
  if c <? 128 then Ok [byte_of_N c]
  else if c <? 2048 then
    Ok [byte_of_N (192 + c / 64); byte_of_N (128 + c mod 64)]
  else if c <? 65536 then
    if (55296 <=? c) && (c <=? 57343)
    then Raise (UnicodeEncodeError "surrogates not allowed")
    else Ok [byte_of_N (224 + c / 4096);
             byte_of_N (128 + (c / 64) mod 64);
             byte_of_N (128 + c mod 64)]
  else if c <? 1114112 then
    Ok [byte_of_N (240 + c / 262144);
        byte_of_N (128 + (c / 4096) mod 64);
        byte_of_N (128 + (c / 64) mod 64);
        byte_of_N (128 + c mod 64)]
  else Raise (UnicodeEncodeError "code point not in range(0x110000)").

Fixpoint encode_utf8 (t : text) : result bytes :=
  match t with
  | [] => Ok []
  | c :: t' =>
      rbind (utf8_of_code_point c) (fun b =>
      rbind (encode_utf8 t') (fun bs => Ok (b ++ bs)))
  end.

(** A continuation byte within [lo, hi], as its six payload bits. *)
Definition continuation (lo hi : N) (b : byte) : option N :=
  let n := Byte.to_N b in
  if (lo <=? n) && (n <=? hi) then Some (n - 128) else None.

(** [bytes.decode('UTF-8')]: strict decoding; overlong forms, surrogates
    and values above U+10FFFF are rejected through the bounds on the
    second byte. *)
Fixpoint decode_utf8_fuel (fuel : nat) (b : bytes) : result text :=
  match fuel with
  | O => Ok []
  | S fuel' =>
      let invalid (what : string) : result text :=
        Raise (UnicodeDecodeError
                 ("'utf-8' codec can't decode byte: " ++ what)%string) in
      let more (c : N) (rest : bytes) : result text :=
        rbind (decode_utf8_fuel fuel' rest) (fun t => Ok (c :: t)) in
      match b with
      | [] => Ok []
      | b0 :: rest =>
          let n := Byte.to_N b0 in
          if n <? 128 then more n rest
          else if (194 <=? n) && (n <=? 223) then
            match rest with
            | b1 :: rest1 =>
                match continuation 128 191 b1 with
                | Some c1 => more ((n - 192) * 64 + c1) rest1
                | None => invalid "invalid continuation byte"
                end
            | _ => invalid "unexpected end of data"
            end
          else if (224 <=? n) && (n <=? 239) then
            let lo := if n =? 224 then 160 else 128 in
            let hi := if n =? 237 then 159 else 191 in
            match rest with
            | b1 :: b2 :: rest2 =>
                match continuation lo hi b1, continuation 128 191 b2 with
                | Some c1, Some c2 =>
                    more ((n - 224) * 4096 + c1 * 64 + c2) rest2
                | _, _ => invalid "invalid continuation byte"
                end
            | _ => invalid "unexpected end of data"
            end
          else if (240 <=? n) && (n <=? 244) then
            let lo := if n =? 240 then 144 else 128 in
            let hi := if n =? 244 then 143 else 191 in
            match rest with
            | b1 :: b2 :: b3 :: rest3 =>
                match continuation lo hi b1, continuation 128 191 b2,
                      continuation 128 191 b3 with
                | Some c1, Some c2, Some c3 =>
                    more ((n - 240) * 262144 + c1 * 4096 + c2 * 64 + c3)
                         rest3
                | _, _, _ => invalid "invalid continuation byte"
                end
            | _ => invalid "unexpected end of data"
            end
          else invalid "invalid start byte"
      end
  end.

Definition decode_utf8 (b : bytes) : result text :=
  decode_utf8_fuel (List.length b) b.

Local Close Scope N_scope.

(** ** json *)

(** The decimal numeral of an integer, as [json.dumps] and [repr] print
    it. *)
Definition decimal (n : Z) : string :=
  DecimalString.NilZero.string_of_int (Z.to_int n).

(** [json.dumps(o)] with the default arguments: separators [", "],
    ASCII-only output. Lists and tuples both become arrays; a [bytes]
    object has no JSON form. *)
Fixpoint dumps_string (o : pyobj) : result string :=
  let fix dumps_items (items : list pyobj) : result string :=
    match items with
    | [] => Ok ""%string
    | [x] => dumps_string x
    | x :: items' =>
        rbind (dumps_string x) (fun s =>
        rbind (dumps_items items') (fun ss => Ok (s ++ ", " ++ ss)%string))
    end in
  match o with
  | PyNone => Ok "null"%string
  | PyBool true => Ok "true"%string
  | PyBool false => Ok "false"%string
  | PyInt n => Ok (decimal n)
  | PyBytes _ =>
      Raise (TypeError "Object of type bytes is not JSON serializable")
  | PyList items | PyTuple items =>
      rbind (dumps_items items) (fun s => Ok ("[" ++ s ++ "]")%string)
  end.

Definition json_dumps (o : pyobj) : result text :=
  rbind (dumps_string o) (fun s => Ok (text_of_string s)).

Local Open Scope N_scope.

(** JSON whitespace: space, tab, line feed, carriage return. *)
Definition is_ws (c : N) : bool :=
  (c =? 32) || (c =? 9) || (c =? 10) || (c =? 13).

Fixpoint skip_ws (t : text) : text :=
  match t with
  | c :: t' => if is_ws c then skip_ws t' else t
  | [] => []
  end.

Definition is_digit (c : N) : bool := (48 <=? c) && (c <=? 57).

(** The digits at the head of [t], accumulated onto [acc]. *)
Fixpoint digits (acc : Z) (t : text) : Z * text :=
  match t with
  | c :: t' =>
      if is_digit c then digits (10 * acc + Z.of_N (c - 48))%Z t'
      else (acc, t)
  | [] => (acc, [])
  end.

(** The characters that would continue an integer into a float. *)
Definition starts_fraction (t : text) : bool :=
  match t with
  | c :: _ => (c =? 46) || (c =? 101) || (c =? 69)
  | [] => false
  end.

(** An unsigned JSON integer: [0], or a non-zero digit and more digits. *)
Definition scan_uint (t : text) : option (Z * text) :=
  match t with
  | c :: t' =>
      if c =? 48 then
        if starts_fraction t' then None else Some (0%Z, t')
      else if is_digit c then
        let (n, rest) := digits 0%Z t in
        if starts_fraction rest then None else Some (n, rest)
      else None
  | [] => None
  end.

(** The scanner of [json.loads] on the fragment: [null], [true], [false],
    integers and arrays. It returns the value and the unread text. *)
Fixpoint scan (fuel : nat) (t : text) : option (pyobj * text) :=
  match fuel with
  | O => None
  | S fuel' =>
      match t with
      | 110 :: 117 :: 108 :: 108 :: rest => Some (PyNone, rest)
      | 116 :: 114 :: 117 :: 101 :: rest => Some (PyBool true, rest)
      | 102 :: 97 :: 108 :: 115 :: 101 :: rest => Some (PyBool false, rest)
      | 91 :: rest =>
          match skip_ws rest with
          | 93 :: rest' => Some (PyList [], rest')
          | rest' => scan_items fuel' rest' []
          end
      | 45 :: rest =>
          match scan_uint rest with
          | Some (n, rest') => Some (PyInt (- n), rest')
          | None => None
          end
      | _ =>
          match scan_uint t with
          | Some (n, rest') => Some (PyInt n, rest')
          | None => None
          end
      end
  end

with scan_items (fuel : nat) (t : text) (acc : list pyobj)
    : option (pyobj * text) :=
  match fuel with
  | O => None
  | S fuel' =>
      match scan fuel' t with
      | Some (v, rest) =>
          match skip_ws rest with
          | 44 :: rest' => scan_items fuel' (skip_ws rest') (acc ++ [v])
          | 93 :: rest' => Some (PyList (acc ++ [v]), rest')
          | _ => None
          end
      | None => None
      end
  end.

(** [json.loads(s)]. *)
Definition json_loads (s : text) : result pyobj :=
  match scan (2 * List.length s + 2) (skip_ws s) with
  | Some (v, rest) =>
      match skip_ws rest with
      | [] => Ok v
      | _ :: _ => Raise (JSONDecodeError "Extra data")
      end
  | None => Raise (JSONDecodeError "Expecting value")
  end.

Local Close Scope N_scope.

(** ** pickle, protocol 3 *)

(** [n.to_bytes(k, 'little', signed=True)]. *)
Definition le_bytes (k : nat) (n : Z) : bytes :=
  map (fun i => byte_of_N (Z.to_N (Z.land (Z.shiftr n (8 * Z.of_nat i)) 255)))
      (seq 0 k).

(** [int.from_bytes(b, 'little')]. *)
Fixpoint le_value (b : bytes) : Z :=
  match b with
  | [] => 0
  | x :: b' => Z.of_N (Byte.to_N x) + 256 * le_value b'
  end.

(** [int.from_bytes(b, 'little', signed=True)]. *)
Definition le_signed (b : bytes) : Z :=
  let v := le_value b in
  let bits := 8 * Z.of_nat (List.length b) in
  if (0 <? bits) && (2 ^ (bits - 1) <=? v) then v - 2 ^ bits else v.

Definition bit_length (x : Z) : Z :=
  if x =? 0 then 0 else Z.log2 (Z.abs x) + 1.

(** [pickle.encode_long]: the shortest two's-complement form. *)
Definition encode_long (x : Z) : bytes :=
  if x =? 0 then []
  else
    let nbytes := Z.to_nat (Z.shiftr (bit_length x) 3 + 1) in
    let result := le_bytes nbytes x in
    if (x <? 0) && (1 <? Z.of_nat nbytes) then
      match rev result with
      | last :: before :: _ =>
          if (Byte.to_N last =? 255)%N && (128 <=? Byte.to_N before)%N
          then removelast result
          else result
      | _ => result
      end
    else result.

(** [Pickler.save_long]: BININT1 [K], BININT2 [M], BININT [J], LONG1,
    LONG4. *)
Definition save_long (n : Z) : bytes :=
  if (0 <=? n) && (n <=? 255) then x4b :: le_bytes 1 n
  else if (0 <=? n) && (n <=? 65535) then x4d :: le_bytes 2 n
  else if (-2147483648 <=? n) && (n <=? 2147483647) then x4a :: le_bytes 4 n
  else
    let encoded := encode_long n in
    let k := Z.of_nat (List.length encoded) in
    if k <? 256 then x8a :: le_bytes 1 k ++ encoded
    else x8b :: le_bytes 4 k ++ encoded.

(** [Pickler.put]: BINPUT [q] or LONG_BINPUT [r] with the memo index. *)
Definition put (idx : Z) : bytes :=
  if idx <? 256 then x71 :: le_bytes 1 idx else x72 :: le_bytes 4 idx.

(** The groups of at most 1000 items of [Pickler._batch_appends]. *)
Fixpoint batches (fuel : nat) (l : list bytes) : list (list bytes) :=
  match fuel, l with
  | _, [] => []
  | O, _ :: _ => []
  | S fuel', _ :: _ => firstn 1000 l :: batches fuel' (skipn 1000 l)
  end.

(** One group: a single item is followed by APPEND [a]; several stand
    between MARK [(] and APPENDS [e]. *)
Definition append_batch (batch : list bytes) : bytes :=
  match batch with
  | [] => []
  | [item] => item ++ [x61]
  | _ :: _ :: _ => x28 :: List.concat batch ++ [x65]
  end.

(** [Pickler.save]: the opcodes of one object, and the size of the memo
    after it. Every occurrence of a [bytes], list or non-empty tuple is an
    object of its own, memoized once. *)
Fixpoint save (o : pyobj) (memo : Z) : bytes * Z :=
  let fix save_all (items : list pyobj) (memo : Z) : list bytes * Z :=
    match items with
    | [] => ([], memo)
    | x :: items' =>
        let (b, memo1) := save x memo in
        let (bs, memo2) := save_all items' memo1 in
        (b :: bs, memo2)
    end in
  match o with
  | PyNone => ([x4e], memo)
  | PyBool true => ([x88], memo)
  | PyBool false => ([x89], memo)
  | PyInt n => (save_long n, memo)
  | PyBytes b =>
      let n := Z.of_nat (List.length b) in
      ((if n <=? 255 then x43 :: le_bytes 1 n else x42 :: le_bytes 4 n)
         ++ b ++ put memo,
       memo + 1)
  | PyTuple [] => ([x29], memo)
  | PyTuple items =>
      let (saved, memo1) := save_all items memo in
      (match saved with
       | [_] => List.concat saved ++ [x85]
       | [_; _] => List.concat saved ++ [x86]
       | [_; _; _] => List.concat saved ++ [x87]
       | _ => x28 :: List.concat saved ++ [x74]
       end ++ put memo1,
       memo1 + 1)
  | PyList items =>
      let (saved, memo1) := save_all items (memo + 1) in
      (x5d :: put memo
         ++ List.concat (map append_batch (batches (List.length saved) saved)),
       memo1)
  end.

(** [pickle.dumps(o, 3)]: PROTO 3, the object, STOP. *)
Definition pickle_dumps (o : pyobj) : result bytes :=
  Ok (x80 :: x03 :: fst (save o 0) ++ [x2e]).

(** The unpickler's stack: objects and marks. *)
Inductive slot : Type :=
| obj (o : pyobj)
| mark.

(** The objects above the topmost mark, oldest first, and the stack
    below it. *)
Fixpoint pop_mark (stack : list slot) (acc : list pyobj)
    : option (list pyobj * list slot) :=
  match stack with
  | mark :: rest => Some (acc, rest)
  | obj o :: rest => pop_mark rest (o :: acc)
  | [] => None
  end.

Definition take (n : nat) (b : bytes) : option (bytes * bytes) :=
  if (List.length b <? n)%nat then None else Some (firstn n b, skipn n b).

(** [Unpickler.load] on the opcodes [save] emits. The class of the
    exception a malformed stream raises varies in CPython
    ([UnpicklingError], [EOFError], ...); it is [UnpicklingError] here,
    except for an unsupported protocol, a [ValueError]. *)
Fixpoint load (fuel : nat) (b : bytes) (stack : list slot) : result pyobj :=
  let truncated : result pyobj :=
    Raise (UnpicklingError "pickle data was truncated") in
  let bad : result pyobj :=
    Raise (UnpicklingError "invalid load key or stack underflow") in
  match fuel, b with
  | O, _ | _, [] => truncated
  | S fuel', op :: b' =>
      let operand (n : nat) (k : bytes -> bytes -> result pyobj) :=
        match take n b' with
        | Some (arg, rest) => k arg rest
        | None => truncated
        end in
      let counted (n : nat) (k : bytes -> bytes -> result pyobj) :=
        operand n (fun len rest =>
          match take (Z.to_nat (le_value len)) rest with
          | Some (arg, rest') => k arg rest'
          | None => truncated
          end) in
      let push (o : pyobj) (rest : bytes) :=
        load fuel' rest (obj o :: stack) in
      match op with
      | x80 => operand 1%nat (fun v rest =>
                 if le_value v <=? 4 then load fuel' rest stack
                 else Raise (ValueError "unsupported pickle protocol"))
      | x4e => push PyNone b'
      | x88 => push (PyBool true) b'
      | x89 => push (PyBool false) b'
      | x4b => operand 1%nat (fun a rest => push (PyInt (le_value a)) rest)
      | x4d => operand 2%nat (fun a rest => push (PyInt (le_value a)) rest)
      | x4a => operand 4%nat (fun a rest => push (PyInt (le_signed a)) rest)
      | x8a => counted 1%nat (fun a rest => push (PyInt (le_signed a)) rest)
      | x8b => counted 4%nat (fun a rest => push (PyInt (le_signed a)) rest)
      | x43 => counted 1%nat (fun a rest => push (PyBytes a) rest)
      | x42 => counted 4%nat (fun a rest => push (PyBytes a) rest)
      | x71 => operand 1%nat (fun _ rest => load fuel' rest stack)
      | x72 => operand 4%nat (fun _ rest => load fuel' rest stack)
      | x28 => load fuel' b' (mark :: stack)
      | x29 => push (PyTuple []) b'
      | x5d => push (PyList []) b'
      | x85 =>
          match stack with
          | obj a :: st => load fuel' b' (obj (PyTuple [a]) :: st)
          | _ => bad
          end
      | x86 =>
          match stack with
          | obj c :: obj a :: st => load fuel' b' (obj (PyTuple [a; c]) :: st)
          | _ => bad
          end
      | x87 =>
          match stack with
          | obj d :: obj c :: obj a :: st =>
              load fuel' b' (obj (PyTuple [a; c; d]) :: st)
          | _ => bad
          end
      | x74 =>
          match pop_mark stack [] with
          | Some (items, st) => load fuel' b' (obj (PyTuple items) :: st)
          | None => bad
          end
      | x61 =>
          match stack with
          | obj v :: obj (PyList l) :: st =>
              load fuel' b' (obj (PyList (l ++ [v])) :: st)
          | _ => bad
          end
      | x65 =>
          match pop_mark stack [] with
          | Some (items, obj (PyList l) :: st) =>
              load fuel' b' (obj (PyList (l ++ items)) :: st)
          | _ => bad
          end
      | x2e =>
          match stack with
          | obj o :: _ => Ok o
          | _ => bad
          end
      | _ => bad
      end
  end.

(** [pickle.loads(b)]. *)
Definition pickle_loads (b : bytes) : result pyobj :=
  load (List.length b) b [].

(** The instance. *)
#[export] Instance runtime : Runtime := {|
  Py.object := pyobj;
  Py.str := text;
  Py.None_ := PyNone;
  Py.pickle_dumps := pickle_dumps;
  Py.pickle_loads := pickle_loads;
  Py.json_dumps := json_dumps;
  Py.json_loads := json_loads;
  Py.encode_utf8 := encode_utf8;
  Py.decode_utf8 := decode_utf8
|}.

End CPython.

(* ================================================================== *)
(** * Concrete sessions *)
(* ================================================================== *)

Module Scenario.

Import CPython.

(** A session on an empty table, nothing logged. *)
Definition fresh (d : Dialect) : World :=
  mkWorld (mkSession d [] [] [] [] 1) [].

(** The world a method leaves. *)
Definition after {A : Type} (m : M A) (w : World) : World := snd (m w).

(** An engine that comes across the rows in the order of their
    insertion. In the tables below no two rows agree on both
    [execution_date] and [timestamp], so that the order of a read does
    not depend on this choice. *)
#[export] Instance insertion_order : Engine := {|
  arrange := fun _ rows => rows;
  arrange_permutation := fun _ rows => Permutation_refl rows
|}.

(** Values: an integer, a list, a tuple, a byte string. *)
Definition one : pyobj := PyInt 1.
Definition two : pyobj := PyInt 2.
Definition a_list : pyobj := PyList [PyInt 1; PyInt 2].
Definition a_tuple : pyobj := PyTuple [PyInt 1; PyInt 2].
Definition some_bytes : pyobj := PyBytes [x61; x62].

(** [b'[1, 2]']. *)
Definition json_1_2 : bytes := [x5b; x31; x2c; x20; x32; x5d].

(** Key ["a"] of task ["t1"] of dag ["d1"], written in JSON mode at the
    instants 1 to 5 for the runs 1 to 5, the value being the number of
    the run. *)
Definition put_run (i : Z) : M unit :=
  XCom.set false i "a" (PyInt i) i "t1" "d1".

Definition five_runs_on (d : Dialect) : World :=
  after (put_run 5)
    (after (put_run 4)
       (after (put_run 3)
          (after (put_run 2) (after (put_run 1) (fresh d))))).

Definition five_runs : World := five_runs_on SQLite.

(** Run 7 of dag ["d1"]: task ["t1"] wrote [1] at instant 1, task
    ["t2"] wrote [2] at instant 2. *)
Definition two_tasks : World :=
  after (XCom.set false 2 "a" two 7 "t2" "d1")
    (after (XCom.set false 1 "a" one 7 "t1" "d1") (fresh SQLite)).

(** One record, written while pickling was enabled. *)
Definition pickled : World :=
  after (XCom.set true 1 "a" one 7 "t1" "d1") (fresh SQLite).

(** The payload of that record: [pickle.dumps(1, 3)]. *)
Definition pickle_of_one : bytes := [x80; x03; x4b; x01; x2e].

(** The record of [pickled], as stored and as [get_many] loads it. *)
Definition pickled_row : Row :=
  mkXCom 1 "a" pickle_of_one 1 7 "t1" "d1".

Definition pickled_record : XCom Py.object :=
  mkXCom 1 "a" one 1 7 "t1" "d1".

(** Two writes to one slot, the second in JSON mode. *)
Definition first_write : XCom.write := XCom.mkWrite true 1 one.
Definition second_write : XCom.write := XCom.mkWrite false 2 a_list.

(** The table of [pickled] with a second key, written in JSON mode. *)
Definition mixed : World :=
  after (XCom.set false 2 "b" two 7 "t1" "d1") pickled.

(** The row of key ["b"] in [mixed]; its payload is [b'2']. *)
Definition json_row : Row := mkXCom 2 "b" [x32] 2 7 "t1" "d1".

(** The rows of [two_tasks], and the records [get_many] loads from
    them. *)
Definition task1_row : Row := mkXCom 1 "a" [x31] 1 7 "t1" "d1".
Definition task2_row : Row := mkXCom 2 "a" [x32] 2 7 "t2" "d1".

Definition task1_record : XCom Py.object := mkXCom 1 "a" one 1 7 "t1" "d1".
Definition task2_record : XCom Py.object := mkXCom 2 "a" two 2 7 "t2" "d1".

(** The two most recent records of [five_runs]. *)
Definition run5_record : XCom Py.object :=
  mkXCom 5 "a" (PyInt 5) 5 5 "t1" "d1".
Definition run4_record : XCom Py.object :=
  mkXCom 4 "a" (PyInt 4) 4 4 "t1" "d1".

End Scenario.

(* ================================================================== *)
(** * Properties *)
(* ================================================================== *)

Import XCom.

Section Properties.

Context {py : Runtime} {db : Engine}.

(** ** Lists *)

Lemma filter_all_true {A : Type} (f : A -> bool) (l : list A) :
  (forall x, f x = true) -> filter f l = l.
Proof.
  intros Hf. induction l as [|a l IH]; simpl.
  - reflexivity.
  - rewrite Hf, IH. reflexivity.
Qed.

Lemma filter_none {A : Type} (f : A -> bool) (l : list A) :
  filter f (filter (fun x => negb (f x)) l) = [].
Proof.
  induction l as [|a l IH]; simpl.
  - reflexivity.
  - destruct (f a) eqn:E; simpl.
    + exact IH.
    + rewrite E. exact IH.
Qed.

(** ** The serialization step *)

Lemma encode_spec (p : bool) (v : object) (w : World) :
  encode p v w =
  match encoded p v with
  | Ok b => (Ok b, w)
  | Raise e =>
      (Raise e,
       if negb p && isinstance_ValueError e
       then mkWorld (session w) (log w ++ [(ERROR, could_not_serialize)])
       else w)
  end.
Proof.
  unfold encode, encoded. destruct p; simpl.
  - unfold eval. destruct (pickle_dumps v); reflexivity.
  - unfold try_except, eval. destruct (json_encode v) as [b|e].
    + reflexivity.
    + destruct (isinstance_ValueError e); reflexivity.
Qed.

Lemma decode_spec (p : bool) (b : bytes) (w : World) :
  decode p b w =
  match decoded p b with
  | Ok v => (Ok v, w)
  | Raise e =>
      (Raise e,
       if negb p && isinstance_ValueError e
       then mkWorld (session w) (log w ++ [(ERROR, could_not_deserialize)])
       else w)
  end.
Proof.
  unfold decode, decoded. destruct p; simpl.
  - unfold eval. destruct (pickle_loads b); reflexivity.
  - unfold try_except, eval. destruct (json_decode b) as [v|e].
    + reflexivity.
    + destruct (isinstance_ValueError e); reflexivity.
Qed.

(** ** [set] *)

(** The session a successful [set] leaves: duplicates gone, one new row,
    everything committed. *)
Lemma set_ok (p : bool) (now : Z) (k : string) (v : object) (e : Z)
    (t d : string) (b : bytes) (w : World) :
  encoded p v = Ok b ->
  set p now k v e t d w =
  (Ok tt,
   let s := session w in
   let kept := filter (fun r => negb (same_slot k e t d r)) (txn s) in
   let assigned := assign_id (dialect s) kept (next_id s) in
   let rows := kept ++ [mkXCom (fst assigned) k b now e t d] in
   mkWorld (mkSession (dialect s) rows rows [] [] (snd assigned)) (log w)).
Proof.
  intros Hb. unfold set, bind, on_session. simpl.
  rewrite encode_spec, Hb. simpl.
  unfold commit, flush, insert_row. simpl.
  rewrite !filter_all_true by reflexivity. simpl.
  destruct (assign_id _ _ _) as [i counter]. simpl.
  rewrite !filter_all_true by reflexivity.
  reflexivity.
Qed.

(** A [set] whose encoding step raises: the exception comes out, and the
    session has only been expunged. *)
Lemma set_raise (p : bool) (now : Z) (k : string) (v : object) (e : Z)
    (t d : string) (x : exn) (w : World) :
  encoded p v = Raise x ->
  set p now k v e t d w =
  (Raise x,
   mkWorld (expunge_all (session w))
     (if negb p && isinstance_ValueError x
      then log w ++ [(ERROR, could_not_serialize)]
      else log w)).
Proof.
  intros Hx. unfold set, bind, on_session. simpl.
  rewrite encode_spec, Hx. simpl.
  destruct (negb p && isinstance_ValueError x); reflexivity.
Qed.

(** ** The order of a result *)

Lemma desc_before_precedes (a b : Row) :
  desc_before a b = true <-> precedes a b.
Proof.
  unfold desc_before, precedes.
  rewrite orb_true_iff, andb_true_iff, Z.ltb_lt, Z.eqb_eq, Z.leb_le.
  reflexivity.
Qed.

Lemma desc_before_false (a b : Row) :
  desc_before a b = false -> precedes b a.
Proof.
  unfold desc_before, precedes. intros H.
  apply orb_false_iff in H. destruct H as [H1 H2].
  apply Z.ltb_ge in H1.
  apply andb_false_iff in H2. destruct H2 as [H2|H2].
  - apply Z.eqb_neq in H2. left. lia.
  - apply Z.leb_gt in H2.
    destruct (Z.eq_dec (execution_date a) (execution_date b)) as [E|E].
    + right. split; [exact E | lia].
    + left. lia.
Qed.

Lemma precedes_trans {U V W : Type} (a : XCom U) (b : XCom V) (c : XCom W) :
  precedes a b -> precedes b c -> precedes a c.
Proof. unfold precedes. intros H1 H2. lia. Qed.

Lemma insert_desc_perm (a : Row) (l : list Row) :
  Permutation (a :: l) (insert_desc a l).
Proof.
  induction l as [|b l IH]; simpl.
  - apply Permutation_refl.
  - destruct (desc_before a b).
    + apply Permutation_refl.
    + eapply perm_trans; [apply perm_swap|].
      apply perm_skip. exact IH.
Qed.

Lemma order_by_perm (l : list Row) : Permutation l (order_by l).
Proof.
  induction l as [|a l IH]; simpl.
  - apply perm_nil.
  - eapply perm_trans; [|apply insert_desc_perm].
    apply perm_skip. exact IH.
Qed.

Lemma order_by_In (l : list Row) (r : Row) : In r (order_by l) <-> In r l.
Proof.
  split; intros H.
  - eapply Permutation_in; [apply Permutation_sym, order_by_perm | exact H].
  - eapply Permutation_in; [apply order_by_perm | exact H].
Qed.

Lemma insert_desc_sorted (a : Row) (l : list Row) :
  StronglySorted precedes l -> StronglySorted precedes (insert_desc a l).
Proof.
  induction 1 as [|b l Hs IH Hb]; simpl.
  - constructor; constructor.
  - destruct (desc_before a b) eqn:E.
    + apply desc_before_precedes in E.
      constructor.
      * constructor; assumption.
      * constructor; [exact E|].
        eapply Forall_impl; [|exact Hb].
        intros c Hc. eapply precedes_trans; eassumption.
    + apply desc_before_false in E.
      constructor; [exact IH|].
      apply Forall_forall. intros c Hc.
      eapply Permutation_in in Hc;
        [|apply Permutation_sym, insert_desc_perm].
      destruct Hc as [<-|Hc]; [exact E|].
      rewrite Forall_forall in Hb. apply Hb, Hc.
Qed.

Lemma order_by_sorted (l : list Row) : StronglySorted precedes (order_by l).
Proof.
  induction l as [|a l IH]; simpl.
  - constructor.
  - apply insert_desc_sorted, IH.
Qed.

(** The first of a list in the order of the reads stands before every
    element of the list. *)
Lemma sorted_head_first {V : Type} (h x : XCom V) (rest : list (XCom V)) :
  StronglySorted precedes (h :: rest) -> In x (h :: rest) -> precedes h x.
Proof.
  intros Hs [<-|Hin].
  - right. split; [reflexivity | lia].
  - inversion Hs as [|? ? _ Hall]; subst.
    rewrite Forall_forall in Hall. apply Hall, Hin.
Qed.

Lemma precedes_both {V W : Type} (a : XCom V) (b : XCom W) :
  precedes a b -> precedes b a ->
  execution_date a = execution_date b /\ timestamp a = timestamp b.
Proof. unfold precedes. lia. Qed.

Lemma sorted_apart {V : Type} (l1 l2 : list (XCom V)) (a b : XCom V) :
  StronglySorted precedes (l1 ++ a :: l2) -> In b l2 -> precedes a b.
Proof.
  induction l1 as [|c l1 IH]; simpl; intros Hs Hin.
  - inversion Hs as [|? ? _ Hall]; subst.
    rewrite Forall_forall in Hall. apply Hall, Hin.
  - inversion Hs; subst. apply IH; assumption.
Qed.

(** Among records of one run, a sorted result is strictly by descending
    [timestamp] wherever the timestamps differ. *)
Lemma sorted_tie_break {V : Type} (l1 l2 l3 : list (XCom V)) (a b : XCom V) :
  StronglySorted precedes (l1 ++ a :: l2 ++ b :: l3) ->
  execution_date a = execution_date b ->
  timestamp a <> timestamp b ->
  timestamp b < timestamp a.
Proof.
  intros Hs He Ht.
  assert (H : precedes a b).
  { eapply sorted_apart; [exact Hs|]. apply in_or_app. right. left.
    reflexivity. }
  unfold precedes in H. lia.
Qed.

Lemma sorted_firstn {V : Type} (n : nat) (l : list (XCom V)) :
  StronglySorted precedes l -> StronglySorted precedes (firstn n l).
Proof.
  revert l. induction n as [|n IH]; intros l Hs; simpl.
  - constructor.
  - destruct l as [|a l]; [constructor|].
    inversion Hs as [|? ? Hs' Hall]; subst.
    constructor; [apply IH, Hs'|].
    apply Forall_forall. intros c Hc.
    rewrite Forall_forall in Hall. apply Hall.
    eapply (In_nth_error) in Hc. destruct Hc as [i Hi].
    apply nth_error_In with (n := i).
    rewrite nth_error_firstn in Hi.
    destruct (Nat.ltb i n); [exact Hi | discriminate].
Qed.

(** The order only looks at the columns. *)
Lemma columns_order {V W : Type} (x : XCom V) (y : XCom W) :
  columns x = columns y ->
  execution_date x = execution_date y /\ timestamp x = timestamp y.
Proof.
  intros H. split.
  - exact (f_equal execution_date H).
  - exact (f_equal timestamp H).
Qed.

Lemma map_columns_cons {V W : Type} (a : XCom V) (l : list (XCom V))
    (a' : XCom W) (l' : list (XCom W)) :
  map columns (a :: l) = map columns (a' :: l') ->
  columns a = columns a' /\ map columns l = map columns l'.
Proof.
  intros H. split.
  - exact (f_equal (hd (columns a)) H).
  - exact (f_equal (@tl _) H).
Qed.

Lemma Forall_precedes_columns {V W : Type} (a : XCom V) (a' : XCom W)
    (l : list (XCom V)) :
  columns a = columns a' ->
  Forall (precedes a) l ->
  forall l' : list (XCom W),
    map columns l = map columns l' -> Forall (precedes a') l'.
Proof.
  intros Ea Hall. destruct (columns_order _ _ Ea) as [Ea1 Ea2].
  induction Hall as [|c l Hc Hall IH]; intros [|c' l'] E;
    try discriminate; [constructor|].
  apply map_columns_cons in E. destruct E as [Ec El].
  destruct (columns_order _ _ Ec) as [Ec1 Ec2].
  constructor; [|apply IH, El].
  unfold precedes in *. lia.
Qed.

Lemma sorted_columns {V W : Type} (l : list (XCom V)) (l' : list (XCom W)) :
  map columns l = map columns l' ->
  StronglySorted precedes l -> StronglySorted precedes l'.
Proof.
  intros E Hs. revert l' E.
  induction Hs as [|a l Hs IH Hall]; intros [|a' l'] E;
    try discriminate; [constructor|].
  apply map_columns_cons in E. destruct E as [Ea El].
  constructor.
  - apply IH, El.
  - eapply Forall_precedes_columns; eassumption.
Qed.

(** Loading keeps the rows, their order and their columns. *)
Lemma init_on_load_columns (p : bool) (r : Row) (x : XCom object) :
  init_on_load p r = Ok x -> columns x = columns r.
Proof.
  unfold init_on_load, rtry, rbind, columns, with_value.
  destruct p.
  - destruct (pickle_loads (value r)); intros H; inversion H; reflexivity.
  - destruct (json_decode (value r)) as [v|e].
    + intros H; inversion H; reflexivity.
    + destruct (_ || _); [|discriminate].
      destruct (pickle_loads (value r)); intros H; inversion H; reflexivity.
Qed.

Lemma rmap_init_on_load_columns (p : bool) (rows : list Row)
    (objs : list (XCom object)) :
  rmap (init_on_load p) rows = Ok objs ->
  map columns objs = map columns rows.
Proof.
  revert objs. induction rows as [|r rows IH]; simpl; intros objs H.
  - inversion H. reflexivity.
  - destruct (init_on_load p r) as [x|] eqn:Ex; [|discriminate].
    destruct (rmap (init_on_load p) rows) as [xs|]; [|discriminate].
    inversion H; subst. simpl.
    rewrite (init_on_load_columns _ _ _ Ex), (IH xs eq_refl).
    reflexivity.
Qed.

(** ** Filters *)

Lemma append_if_falsy {A : Type} (truth : option A -> bool) (arg : option A)
    (c : A -> criterion) :
  truth arg = false -> append_if truth arg c = [].
Proof.
  intros H. unfold append_if. destruct arg; [rewrite H|]; reflexivity.
Qed.

Lemma append_if_truthy {A : Type} (truth : option A -> bool) (a : A)
    (c : A -> criterion) :
  truth (Some a) = true -> append_if truth (Some a) c = [c a].
Proof. intros H. unfold append_if. rewrite H. reflexivity. Qed.

Lemma and_app (f g : list criterion) (r : Row) :
  and_ (f ++ g) r = and_ f r && and_ g r.
Proof. unfold and_. apply forallb_app. Qed.

(** What an optional equality filter asks of a row. *)
Lemma and_append_if_eq (arg : option string) (c : string -> criterion)
    (col : Row -> string) (r : Row) :
  (forall s, holds (c s) r = String.eqb (col r) s) ->
  and_ (append_if truthy arg c) r = true <->
  (truthy arg = true -> arg = Some (col r)).
Proof.
  intros Hc. unfold append_if, and_.
  destruct arg as [s|]; simpl.
  - destruct (truthy_str s); simpl.
    + rewrite Hc, andb_true_r, String.eqb_eq.
      split; [intros -> _; reflexivity | intros H].
      specialize (H eq_refl). congruence.
    + split; [discriminate | reflexivity].
  - split; [discriminate | reflexivity].
Qed.


Lemma and_date (ipd : bool) (e : Z) (r : Row) :
  and_ (if ipd then [execution_date_le e] else [execution_date_eq e]) r = true
  <-> (if ipd then execution_date r <= e else execution_date r = e).
Proof.
  unfold and_. destruct ipd; simpl; rewrite andb_true_r.
  - apply Z.leb_le.
  - apply Z.eqb_eq.
Qed.

Lemma get_one_filters_app (e : Z) (k t d : option string) (ipd : bool) :
  get_one_filters e k t d ipd =
  append_if truthy k key_eq ++ append_if truthy t task_id_eq
  ++ append_if truthy d dag_id_eq
  ++ (if ipd then [execution_date_le e] else [execution_date_eq e]).
Proof.
  unfold get_one_filters. destruct ipd; simpl; rewrite <- !app_assoc;
    reflexivity.
Qed.

Lemma get_many_filters_app (e : Z) (k : option string) (ts ds : option ids)
    (ipd : bool) :
  get_many_filters e k ts ds ipd =
  append_if truthy k key_eq
  ++ append_if truthy_ids ts (fun x => task_id_in (as_tuple x))
  ++ append_if truthy_ids ds (fun x => dag_id_in (as_tuple x))
  ++ (if ipd then [execution_date_le e] else [execution_date_eq e]).
Proof.
  unfold get_many_filters. destruct ipd; simpl; rewrite <- !app_assoc;
    reflexivity.
Qed.

(** ** The read methods, unfolded *)

Lemma get_one_unfold (p : bool) (e : Z) (k t d : option string) (ipd : bool)
    (w : World) :
  get_one p e k t d ipd w =
  match get_one_query e k t d ipd (session w) with
  | r :: _ => decode p (value r) w
  | [] => (Ok None_, w)
  end.
Proof.
  unfold get_one, first.
  destruct (get_one_query e k t d ipd (session w)); reflexivity.
Qed.

Lemma limit_nonneg (dl : Dialect) (n : Z) (rows : list Row) :
  0 <= n -> limit dl n rows = Ok (firstn (Z.to_nat n) rows).
Proof.
  intros Hn. unfold limit.
  destruct (0 <=? n) eqn:E; [reflexivity|].
  apply Z.leb_gt in E. lia.
Qed.

Lemma limit_sorted (dl : Dialect) (n : Z) (rows out : list Row) :
  StronglySorted precedes rows ->
  limit dl n rows = Ok out -> StronglySorted precedes out.
Proof.
  intros Hs. unfold limit.
  destruct (0 <=? n).
  - intros H. inversion H. apply sorted_firstn, Hs.
  - destruct dl; intros H; inversion H; subst. exact Hs.
Qed.

(** ** Which records a read matches *)

Lemma get_one_candidates_In (e : Z) (k t d : option string) (ipd : bool)
    (s : Session) (r : Row) :
  In r (get_one_candidates e k t d ipd s) <->
  In r (txn s)
  /\ (if ipd then execution_date r <= e else execution_date r = e)
  /\ (truthy k = true -> k = Some (key r))
  /\ (truthy t = true -> t = Some (task_id r))
  /\ (truthy d = true -> d = Some (dag_id r)).
Proof.
  unfold get_one_candidates.
  rewrite filter_In, get_one_filters_app, !and_app, !andb_true_iff.
  rewrite (and_append_if_eq k key_eq key) by reflexivity.
  rewrite (and_append_if_eq t task_id_eq task_id) by reflexivity.
  rewrite (and_append_if_eq d dag_id_eq dag_id) by reflexivity.
  rewrite and_date. tauto.
Qed.


(** The rows a read ranges over are its candidates, in the order of the
    ORDER BY. *)
Lemma get_one_query_perm (e : Z) (k t d : option string) (ipd : bool)
    (s : Session) :
  Permutation (get_one_candidates e k t d ipd s)
              (get_one_query e k t d ipd s).
Proof.
  unfold get_one_query.
  eapply Permutation_trans; [apply arrange_permutation | apply order_by_perm].
Qed.

Lemma get_one_query_In (e : Z) (k t d : option string) (ipd : bool)
    (s : Session) (r : Row) :
  In r (get_one_query e k t d ipd s) <->
  In r (get_one_candidates e k t d ipd s).
Proof.
  split; apply Permutation_in;
    [apply Permutation_sym|]; apply get_one_query_perm.
Qed.

Lemma get_one_query_sorted (e : Z) (k t d : option string) (ipd : bool)
    (s : Session) :
  StronglySorted precedes (get_one_query e k t d ipd s).
Proof. apply order_by_sorted. Qed.

Lemma get_many_ordered_perm (e : Z) (k : option string) (ts ds : option ids)
    (ipd : bool) (n : Z) (s : Session) :
  Permutation (get_many_candidates e k ts ds ipd s)
              (get_many_ordered e k ts ds ipd n s).
Proof.
  unfold get_many_ordered.
  eapply Permutation_trans; [apply arrange_permutation | apply order_by_perm].
Qed.

Lemma get_many_ordered_In (e : Z) (k : option string) (ts ds : option ids)
    (ipd : bool) (n : Z) (s : Session) (r : Row) :
  In r (get_many_ordered e k ts ds ipd n s) <->
  In r (get_many_candidates e k ts ds ipd s).
Proof.
  split; apply Permutation_in;
    [apply Permutation_sym|]; apply get_many_ordered_perm.
Qed.

Lemma get_many_ordered_sorted (e : Z) (k : option string)
    (ts ds : option ids) (ipd : bool) (n : Z) (s : Session) :
  StronglySorted precedes (get_many_ordered e k ts ds ipd n s).
Proof. apply order_by_sorted. Qed.

Lemma get_many_unfold (p : bool) (e : Z) (k : option string)
    (ts ds : option ids) (ipd : bool) (n : Z) (w : World) :
  get_many p e k ts ds ipd n w =
  (rbind (limit (dialect (session w)) n
            (get_many_ordered e k ts ds ipd n (session w)))
         (rmap (init_on_load p)),
   w).
Proof. reflexivity. Qed.


(** C10. A filter argument given as a falsy value (the empty string for
    [key], [task_id] or [dag_id]; the empty string or an empty collection
    for [task_ids] or [dag_ids]) is the omitted filter: the method called
    with it is the method called with [None] in its place, so the column
    is not constrained. *)
Theorem falsy_filter_is_omitted :
  forall (p : bool) (e : Z) (k t d : option string) (ts ds : option ids)
         (ipd : bool) (n : Z),
    (truthy k = false ->
     get_one p e k t d ipd = get_one p e None t d ipd
     /\ get_many p e k ts ds ipd n = get_many p e None ts ds ipd n)
    /\ (truthy t = false ->
        get_one p e k t d ipd = get_one p e k None d ipd)
    /\ (truthy d = false ->
        get_one p e k t d ipd = get_one p e k t None ipd)
    /\ (truthy_ids ts = false ->
        get_many p e k ts ds ipd n = get_many p e k None ds ipd n)
    /\ (truthy_ids ds = false ->
        get_many p e k ts ds ipd n = get_many p e k ts None ipd n).
Proof.
  intros p e k t d ts ds ipd n.
  unfold get_one, get_one_query, get_one_candidates,
         get_many, get_many_query, get_many_ordered, get_many_candidates.
  rewrite !get_one_filters_app, !get_many_filters_app.
  split; [intros H; split
        | split; [intros H | split; [intros H | split; intros H]]];
    rewrite (append_if_falsy _ _ _ H); reflexivity.
Qed.

(** ** The order of a read *)

Lemma get_many_rows (p : bool) (e : Z) (k : option string)
    (ts ds : option ids) (ipd : bool) (n : Z) (w : World)
    (objs : list (XCom object)) :
  fst (get_many p e k ts ds ipd n w) = Ok objs ->
  exists rows,
    get_many_query e k ts ds ipd n (session w) = Ok rows
    /\ rmap (init_on_load p) rows = Ok objs.
Proof.
  unfold get_many. simpl. unfold rbind.
  destruct (get_many_query e k ts ds ipd n (session w)) as [rows|];
    [|discriminate].
  intros H. exists rows. split; [reflexivity | exact H].
Qed.

Lemma get_many_sorted (p : bool) (e : Z) (k : option string)
    (ts ds : option ids) (ipd : bool) (n : Z) (w : World)
    (objs : list (XCom object)) :
  fst (get_many p e k ts ds ipd n w) = Ok objs ->
  StronglySorted precedes objs.
Proof.
  intros H. apply get_many_rows in H. destruct H as [rows [Hq Hl]].
  apply (sorted_columns rows objs).
  - symmetry. eapply rmap_init_on_load_columns, Hl.
  - unfold get_many_query in Hq.
    eapply limit_sorted; [apply get_many_ordered_sorted | exact Hq].
Qed.

(** C4. [get_one] and [get_many] take the records that match in the
    order of [execution_date] descending, then [timestamp] descending
    (records equal on both stand as the engine leaves them). [get_one]
    decodes the first record of that order, which stands before every
    matching record: the most recent run wins and, within it, the most
    recent write. [get_many] loads the records of that order from its
    start, up to the limit, and returns them in that order. In both, two
    records with equal [execution_date] and different [timestamp] stand
    strictly by descending [timestamp]. *)
Theorem read_order :
  forall (p : bool) (e : Z) (k t d : option string) (ts ds : option ids)
         (ipd : bool) (n : Z) (w : World),
    let one := get_one_query e k t d ipd (session w) in
    let many := get_many_ordered e k ts ds ipd n (session w) in
    StronglySorted precedes one
    /\ Permutation (get_one_candidates e k t d ipd (session w)) one
    /\ get_one p e k t d ipd w =
       match one with
       | r :: _ => decode p (value r) w
       | [] => (Ok None_, w)
       end
    /\ (forall r rest r',
          one = r :: rest ->
          In r' (get_one_candidates e k t d ipd (session w)) ->
          precedes r r')
    /\ (forall l1 a l2 b l3,
          one = l1 ++ a :: l2 ++ b :: l3 ->
          execution_date a = execution_date b ->
          timestamp a <> timestamp b ->
          timestamp b < timestamp a)
    /\ StronglySorted precedes many
    /\ Permutation (get_many_candidates e k ts ds ipd (session w)) many
    /\ get_many p e k ts ds ipd n w =
       (rbind (limit (dialect (session w)) n many) (rmap (init_on_load p)),
        w)
    /\ (forall objs,
          fst (get_many p e k ts ds ipd n w) = Ok objs ->
          (exists rows,
             limit (dialect (session w)) n many = Ok rows
             /\ (0 <= n -> rows = firstn (Z.to_nat n) many)
             /\ (n < 0 -> rows = many)
             /\ map columns objs = map columns rows)
          /\ StronglySorted precedes objs
          /\ forall l1 a l2 b l3,
               objs = l1 ++ a :: l2 ++ b :: l3 ->
               execution_date a = execution_date b ->
               timestamp a <> timestamp b ->
               timestamp b < timestamp a).
Proof.
  intros p e k t d ts ds ipd n w one many.
  assert (Hone : StronglySorted precedes one) by apply get_one_query_sorted.
  split; [exact Hone|].
  split; [apply get_one_query_perm|].
  split; [apply get_one_unfold|].
  split.
  { intros r rest r' E Hin.
    apply get_one_query_In in Hin. fold one in Hin. rewrite E in Hin, Hone.
    apply (sorted_head_first r r' rest Hone Hin). }
  split.
  { intros l1 a l2 b l3 E. rewrite E in Hone.
    eapply sorted_tie_break; eassumption. }
  split; [apply get_many_ordered_sorted|].
  split; [apply get_many_ordered_perm|].
  split; [apply get_many_unfold|].
  intros objs Hobjs.
  pose proof (get_many_sorted _ _ _ _ _ _ _ _ _ Hobjs) as Hs.
  split.
  { apply get_many_rows in Hobjs. destruct Hobjs as [rows [Hq Hl]].
    exists rows. unfold get_many_query in Hq. fold many in Hq.
    split; [exact Hq|].
    split.
    { intros Hn. rewrite limit_nonneg in Hq by exact Hn.
      inversion Hq. reflexivity. }
    split.
    { intros Hn. unfold limit in Hq.
      destruct (0 <=? n) eqn:E; [apply Z.leb_le in E; lia|].
      destruct (dialect (session w)); inversion Hq; reflexivity. }
    eapply rmap_init_on_load_columns, Hl. }
  split; [exact Hs|].
  intros l1 a l2 b l3 E. rewrite E in Hs.
  eapply sorted_tie_break; eassumption.
Qed.

(** ** The limit of [get_many] *)

Lemma sorted_firstn_skipn {V : Type} (n : nat) (l : list (XCom V))
    (a b : XCom V) :
  StronglySorted precedes l ->
  In a (firstn n l) -> In b (skipn n l) -> precedes a b.
Proof.
  revert l. induction n as [|n IH]; intros l Hs Ha Hb; simpl in *.
  - contradiction.
  - destruct l as [|c l]; [contradiction|].
    inversion Hs as [|? ? Hs' Hall]; subst.
    destruct Ha as [<-|Ha].
    + rewrite Forall_forall in Hall. apply Hall.
      rewrite <- (firstn_skipn n l). apply in_or_app. right. exact Hb.
    + apply (IH l); assumption.
Qed.

(** C9, as amended. For a limit [n >= 0], [get_many] loads exactly the
    first [n] of the matching records taken in descending
    [(execution_date, timestamp)] order: [n] records when at least [n]
    match, each standing before every matching record left out, and no
    record when [n = 0]. A negative limit reaches the database as it is;
    on SQLite it bounds nothing and all matching records are loaded. *)
Theorem get_many_limit :
  forall (p : bool) (e : Z) (k : option string) (ts ds : option ids)
         (ipd : bool) (n : Z) (w : World),
    let matching := get_many_ordered e k ts ds ipd n (session w) in
    let top := firstn (Z.to_nat n) matching in
    Permutation (get_many_candidates e k ts ds ipd (session w)) matching
    /\ StronglySorted precedes matching
    /\ (0 <= n ->
     get_many p e k ts ds ipd n w = (rmap (init_on_load p) top, w)
     /\ (n <= Z.of_nat (List.length matching) ->
         List.length top = Z.to_nat n)
     /\ (forall a b,
           In a top -> In b (skipn (Z.to_nat n) matching) -> precedes a b)
     /\ (n = 0 -> fst (get_many p e k ts ds ipd n w) = Ok []))
    /\ (n < 0 -> dialect (session w) = SQLite ->
        get_many p e k ts ds ipd n w = (rmap (init_on_load p) matching, w)).
Proof.
  intros p e k ts ds ipd n w matching top.
  split; [apply get_many_ordered_perm|].
  split; [apply get_many_ordered_sorted|].
  split.
  - intros Hn.
    assert (Hget : get_many p e k ts ds ipd n w
                   = (rmap (init_on_load p) top, w)).
    { unfold get_many, get_many_query. rewrite limit_nonneg by exact Hn.
      reflexivity. }
    split; [exact Hget|].
    split.
    { intros Hlen. apply firstn_length_le. lia. }
    split.
    { intros a b. apply sorted_firstn_skipn, get_many_ordered_sorted. }
    intros ->. rewrite Hget. reflexivity.
  - intros Hn Hd. unfold get_many, get_many_query, limit.
    destruct (0 <=? n) eqn:E; [apply Z.leb_le in E; lia|].
    rewrite Hd. reflexivity.
Qed.

(** PostgreSQL and MySQL reject a negative limit: [get_many] raises. *)
Lemma get_many_negative_limit_rejected (p : bool) (e : Z) (k : option string)
    (ts ds : option ids) (ipd : bool) (n : Z) (w : World) :
  n < 0 -> dialect (session w) <> SQLite ->
  exists msg, get_many p e k ts ds ipd n w = (Raise (DatabaseError msg), w).
Proof.
  intros Hn Hd. unfold get_many, get_many_query, limit.
  destruct (0 <=? n) eqn:E; [apply Z.leb_le in E; lia|].
  destruct (dialect (session w)); [contradiction| |]; eexists; reflexivity.
Qed.

(** ** Failures of the encoding step *)

Lemma encode_result (p : bool) (v : object) (w : World) :
  fst (encode p v w) = encoded p v.
Proof. rewrite encode_spec. destruct (encoded p v); reflexivity. Qed.

(** C7. When the encoding step of [set] raises, [set] raises the same
    exception and has changed nothing in the store: the committed table
    and the rows of the open transaction are what they were, no row was
    deleted and none inserted. *)
Theorem set_encode_error_no_mutation :
  forall (p : bool) (now : Z) (k : string) (v : object) (e : Z)
         (t d : string) (x : exn) (w : World),
    fst (encode p v w) = Raise x ->
    fst (set p now k v e t d w) = Raise x
    /\ table (session (snd (set p now k v e t d w))) = table (session w)
    /\ txn (session (snd (set p now k v e t d w))) = txn (session w)
    /\ next_id (session (snd (set p now k v e t d w))) = next_id (session w).
Proof.
  intros p now k v e t d x w H.
  rewrite encode_result in H.
  rewrite (set_raise _ _ _ _ _ _ _ _ _ H). simpl.
  repeat split; reflexivity.
Qed.

(** What the handler of [set] does when it is entered: a [ValueError]
    from the JSON encoding (a circular reference, for instance) is logged
    at error level with the advice and raised again. *)
Lemma set_logged_encode_error (now : Z) (k : string) (v : object) (e : Z)
    (t d : string) (x : exn) (w : World) :
  json_encode v = Raise x ->
  isinstance_ValueError x = true ->
  set false now k v e t d w
  = (Raise x,
     mkWorld (expunge_all (session w))
             (log w ++ [(ERROR, could_not_serialize)])).
Proof.
  intros Hx Hv.
  rewrite (set_raise false now k v e t d x w Hx).
  rewrite Hv. reflexivity.
Qed.

(** C3, on the code. With pickling disabled, a value on which
    [json.dumps(value).encode('UTF-8')] raises an exception that is not a
    [ValueError] makes [set] raise that exception with nothing logged:
    the [except ValueError] clause, which logs the advice, is not
    entered. The exception is not swallowed and the store is not
    touched. *)
Theorem set_unlogged_encode_error :
  forall (now : Z) (k : string) (v : object) (e : Z) (t d : string)
         (x : exn) (w : World),
    json_encode v = Raise x ->
    isinstance_ValueError x = false ->
    set false now k v e t d w
    = (Raise x, mkWorld (expunge_all (session w)) (log w)).
Proof.
  intros now k v e t d x w Hx Hv.
  rewrite (set_raise false now k v e t d x w Hx).
  rewrite Hv. reflexivity.
Qed.

(** ** [delete] *)

Lemma first_non_xcom_In (l : list element) (c : string) :
  In (an_object c) l -> exists c', first_non_xcom l = Some c'.
Proof.
  induction l as [|[x|c0] l IH]; simpl; intros H.
  - contradiction.
  - destruct H as [H|H]; [discriminate | apply IH, H].
  - exists c0. reflexivity.
Qed.

Lemma first_non_xcom_sound (l : list element) (c : string) :
  first_non_xcom l = Some c -> In (an_object c) l.
Proof.
  induction l as [|[x|c0] l IH]; simpl; intros H.
  - discriminate.
  - right. apply IH, H.
  - left. congruence.
Qed.

Lemma delete_loop_raise (l : list element) :
  forall (c : string) (w : World),
    first_non_xcom l = Some c ->
    exists w',
      delete_loop l w
      = (Raise (TypeError ("Expected XCom; received " ++ c)%string), w')
      /\ table (session w') = table (session w)
      /\ txn (session w') = txn (session w).
Proof.
  induction l as [|[x|c0] l IH]; simpl; intros c w H.
  - discriminate.
  - unfold bind, on_session.
    destruct (IH c (mkWorld (session_delete x (session w)) (log w)) H)
      as [w' [E [Ht Hx]]].
    exists w'. rewrite E. repeat split; assumption.
  - injection H as <-. exists w. repeat split; reflexivity.
Qed.

(** C8. When an element handed to [delete] is not an [XCom], [delete]
    raises a [TypeError] whose message names the class of the first such
    element, and nothing is deleted: the commit is not reached, so the
    committed table and the rows of the open transaction are unchanged,
    the valid elements of the batch included. *)
Theorem delete_type_error_no_deletion :
  forall (now : Z) (l : list element) (c0 : string) (w : World),
    In (an_object c0) l ->
    exists c,
      first_non_xcom l = Some c
      /\ In (an_object c) l
      /\ fst (delete now (iterable l) w)
         = Raise (TypeError ("Expected XCom; received " ++ c)%string)
      /\ table (session (snd (delete now (iterable l) w)))
         = table (session w)
      /\ txn (session (snd (delete now (iterable l) w)))
         = txn (session w).
Proof.
  intros now l c0 w Hin.
  destruct (first_non_xcom_In l c0 Hin) as [c Hc].
  exists c. split; [exact Hc|].
  split; [apply first_non_xcom_sound, Hc|].
  destruct (delete_loop_raise l c w Hc) as [w' [E [Ht Hx]]].
  unfold delete, bind. rewrite E. simpl.
  repeat split; assumption.
Qed.

(** ** Reading back what was written *)

Lemma reads_back_decoded (p : bool) (v : object) (b : bytes) :
  reads_back p v -> encoded p v = Ok b -> decoded p b = Ok v.
Proof.
  unfold reads_back, encoded, decoded. destruct p.
  - intros H Hb. apply H, Hb.
  - unfold json_encode, json_decode, rbind. intros H Hb.
    destruct (json_dumps v) as [s|] eqn:Es; [|discriminate].
    destruct (H s b eq_refl Hb) as [Hd Hl].
    rewrite Hd. exact Hl.
Qed.

(** C6, as amended. Under either policy, for a value [v] that the policy
    encodes and that the libraries read back from their own output
    ([reads_back]: for JSON this holds of the values JSON represents
    without loss, and fails for instance of a tuple, which comes back as
    a list), decoding the bytes that encoding [v] produced yields [v]:
    in [get_one], with nothing logged, and in [init_on_load]. *)
Theorem round_trip :
  forall (p : bool) (v : object) (b : bytes) (w w' : World) (r : Row),
    reads_back p v ->
    fst (encode p v w) = Ok b ->
    decode p b w' = (Ok v, w')
    /\ (value r = b -> init_on_load p r = Ok (with_value r v)).
Proof.
  intros p v b w w' r Hr Hb.
  rewrite encode_result in Hb.
  pose proof (reads_back_decoded p v b Hr Hb) as Hd.
  split.
  - rewrite decode_spec, Hd. reflexivity.
  - intros <-. unfold init_on_load. unfold decoded in Hd.
    destruct p; rewrite Hd; reflexivity.
Qed.

(** C2, as amended. Take a payload [b] that [pickle.dumps] produced for
    [v] and [pickle.loads] reads back, and on which the UTF-8/JSON decode
    raises a [ValueError]. With pickling disabled, [init_on_load] (the
    decoding of the records [get_many] loads) falls back to
    [pickle.loads] and yields [v]. [get_one] does not fall back: when the
    selected row carries [b] it logs the advice at error level and raises
    the decode error again. *)
Theorem legacy_payload_after_switch :
  forall (v : object) (b : bytes) (x : exn) (r : Row) (e : Z)
         (k t d : option string) (ipd : bool) (rest : list Row) (w : World),
    pickle_dumps v = Ok b ->
    pickle_loads b = Ok v ->
    json_decode b = Raise x ->
    isinstance_ValueError x = true ->
    value r = b ->
    init_on_load false r = Ok (with_value r v)
    /\ (get_one_query e k t d ipd (session w) = r :: rest ->
        get_one false e k t d ipd w
        = (Raise x,
           mkWorld (session w)
                   (log w ++ [(ERROR, could_not_deserialize)]))).
Proof.
  intros v b x r e k t d ipd rest w _ Hl Hj Hx Hr. split.
  - unfold init_on_load, rtry. rewrite Hr, Hj. simpl.
    rewrite Hx, orb_true_r, Hl. reflexivity.
  - intros Hq. rewrite get_one_unfold, Hq, Hr, decode_spec.
    unfold decoded. rewrite Hj, Hx. reflexivity.
Qed.

(** ** Writing twice to one slot *)

Lemma same_slot_refl (i : Z) (k : string) (b : bytes) (now e : Z)
    (t d : string) :
  same_slot k e t d (mkXCom i k b now e t d) = true.
Proof.
  unfold same_slot. simpl.
  rewrite !String.eqb_refl, Z.eqb_refl. reflexivity.
Qed.

Lemma exact_filters_same_slot (k : string) (e : Z) (t d : string) (r : Row) :
  truthy_str k = true -> truthy_str t = true -> truthy_str d = true ->
  and_ (get_one_filters e (Some k) (Some t) (Some d) false) r
  = same_slot k e t d r.
Proof.
  intros Hk Ht Hd. rewrite get_one_filters_app.
  rewrite !append_if_truthy by assumption.
  unfold and_, same_slot. simpl.
  destruct (String.eqb (key r) k), (String.eqb (task_id r) t),
    (String.eqb (dag_id r) d), (execution_date r =? e); reflexivity.
Qed.

(** With the three identifiers and the exact date, [get_one] reads the
    rows of the slot; when there is one, it decodes that one. *)
Lemma get_one_exact (p : bool) (k : string) (e : Z) (t d : string)
    (w : World) (r : Row) :
  truthy_str k = true -> truthy_str t = true -> truthy_str d = true ->
  filter (same_slot k e t d) (txn (session w)) = [r] ->
  get_one p e (Some k) (Some t) (Some d) false w = decode p (value r) w.
Proof.
  intros Hk Ht Hd Hr. rewrite get_one_unfold.
  unfold get_one_query, get_one_candidates.
  rewrite (filter_ext _ (same_slot k e t d))
    by (intros r'; apply exact_filters_same_slot; assumption).
  rewrite Hr.
  rewrite (Permutation_length_1_inv (arrange_permutation _ [r])).
  reflexivity.
Qed.

Lemma set_all_app (k : string) (e : Z) (t d : string) (ws ws' : list write)
    (w : World) :
  set_all k e t d (ws ++ ws') w =
  match set_all k e t d ws w with
  | (Ok _, w') => set_all k e t d ws' w'
  | (Raise x, w') => (Raise x, w')
  end.
Proof.
  revert w. induction ws as [|a ws IH]; intros w; simpl.
  - reflexivity.
  - unfold bind.
    destruct (set (w_pickling a) (w_now a) k (w_value a) e t d w)
      as [[[]|x] w1].
    + apply IH.
    + reflexivity.
Qed.

Lemma set_all_ok (k : string) (e : Z) (t d : string) (ws : list write)
    (w : World) :
  Forall (fun x => exists b, encoded (w_pickling x) (w_value x) = Ok b) ws ->
  exists w', set_all k e t d ws w = (Ok tt, w').
Proof.
  intros H. revert w. induction H as [|a ws [b Hb] _ IH]; intros w; simpl.
  - exists w. reflexivity.
  - unfold bind. rewrite (set_ok _ _ _ _ _ _ _ b w Hb). apply IH.
Qed.

(** C1, as amended. Take a natural key
    [(dag_id, task_id, execution_date, key)] with non-empty [key],
    [task_id] and [dag_id], and any number of successive [set] calls on
    it, the last one included, each with a value its policy encodes.
    They all return; afterwards the store holds exactly one record with
    that natural key, the one the last call inserted, and [get_one] with
    the exact [execution_date] and the three identifiers returns what
    decoding the payload of that last call gives. That is the value of
    the last call when the libraries read that value back from what they
    wrote ([reads_back]), which they do not, for instance, for a tuple
    written as JSON. *)
Theorem dedup_on_write :
  forall (k : string) (e : Z) (t d : string) (ws : list write)
         (last : write) (w : World),
    truthy_str k = true -> truthy_str t = true -> truthy_str d = true ->
    Forall (fun x => exists b, encoded (w_pickling x) (w_value x) = Ok b)
           (ws ++ [last]) ->
    exists (w' : World) (b : bytes) (i : Z),
      set_all k e t d (ws ++ [last]) w = (Ok tt, w')
      /\ encoded (w_pickling last) (w_value last) = Ok b
      /\ filter (same_slot k e t d) (table (session w'))
         = [mkXCom i k b (w_now last) e t d]
      /\ List.length (filter (same_slot k e t d) (table (session w')))
         = 1%nat
      /\ txn (session w') = table (session w')
      /\ get_one (w_pickling last) e (Some k) (Some t) (Some d) false w'
         = decode (w_pickling last) b w'
      /\ (reads_back (w_pickling last) (w_value last) ->
          get_one (w_pickling last) e (Some k) (Some t) (Some d) false w'
          = (Ok (w_value last), w')).
Proof.
  intros k e t d ws last w Hk Ht Hd Hall.
  apply Forall_app in Hall. destruct Hall as [Hws Hlast].
  inversion Hlast as [|? ? [b Hb] _]; subst.
  destruct (set_all_ok k e t d ws w Hws) as [w1 E1].
  pose (kept :=
          filter (fun r => negb (same_slot k e t d r)) (txn (session w1))).
  pose (assigned :=
          assign_id (dialect (session w1)) kept (next_id (session w1))).
  pose (row := mkXCom (fst assigned) k b (w_now last) e t d).
  pose (rows := kept ++ [row]).
  exists (mkWorld (mkSession (dialect (session w1)) rows rows [] []
                             (snd assigned))
                  (log w1)),
         b, (fst assigned).
  assert (Hrows : filter (same_slot k e t d) rows = [row]).
  { unfold rows, kept. rewrite filter_app, filter_none. simpl.
    unfold row. rewrite same_slot_refl. reflexivity. }
  split.
  { rewrite set_all_app, E1. simpl. unfold bind.
    rewrite (set_ok _ _ _ _ _ _ _ b w1 Hb). reflexivity. }
  split; [exact Hb|].
  split; [exact Hrows|].
  split; [simpl; rewrite Hrows; reflexivity|].
  split; [reflexivity|].
  assert (Hget :
    get_one (w_pickling last) e (Some k) (Some t) (Some d) false
      (mkWorld (mkSession (dialect (session w1)) rows rows [] []
                          (snd assigned))
               (log w1))
    = decode (w_pickling last) b
        (mkWorld (mkSession (dialect (session w1)) rows rows [] []
                            (snd assigned))
                 (log w1))).
  { apply (get_one_exact _ k e t d _ row); assumption. }
  split; [exact Hget|].
  intros Hr. rewrite Hget, decode_spec, (reads_back_decoded _ _ _ Hr Hb).
  reflexivity.
Qed.

End Properties.

(* ================================================================== *)
(** * The methods on concrete inputs *)
(* ================================================================== *)

Import CPython Scenario.

(** Whatever the value, its pickle starts with the PROTO opcode [0x80],
    which no UTF-8 text starts with: with pickling disabled, the JSON
    path fails on every pickled payload, with a [ValueError]. *)
Lemma pickle_is_not_utf8 (v : pyobj) (b : bytes) :
  CPython.pickle_dumps v = Ok b ->
  XCom.decoded false b
  = Raise (UnicodeDecodeError
             "'utf-8' codec can't decode byte: invalid start byte").
Proof.
  unfold CPython.pickle_dumps. intros H. injection H as <-.
  reflexivity.
Qed.

Lemma reads_back_a_list : reads_back false a_list.
Proof.
  intros s b Hs Hb.
  vm_compute in Hs. injection Hs as <-.
  vm_compute in Hb. injection Hb as <-.
  split; vm_compute; reflexivity.
Qed.

(** Two writes to one slot, the first pickled, the second in JSON: one
    record remains and [get_one] returns the list written last. *)
Lemma dedup_on_write_witness :
  let w' :=
    after (set_all "a" 7 "t1" "d1" ([first_write] ++ [second_write]))
          (fresh SQLite) in
  fst (set_all "a" 7 "t1" "d1" ([first_write] ++ [second_write])
               (fresh SQLite)) = Ok tt
  /\ filter (same_slot "a" 7 "t1" "d1") (table (session w'))
     = [mkXCom 1 "a" json_1_2 2 7 "t1" "d1"]
  /\ get_one false 7 (Some "a") (Some "t1") (Some "d1") false w'
     = (Ok a_list, w').
Proof.
  destruct (dedup_on_write (py := CPython.runtime) "a" 7 "t1" "d1"
              [first_write] second_write (fresh SQLite))
    as (w' & b & i & Hset & _ & Hrows & _ & _ & _ & Hget).
  - reflexivity.
  - reflexivity.
  - reflexivity.
  - repeat constructor; eexists; vm_compute; reflexivity.
  - unfold after. rewrite Hset. simpl.
    split; [reflexivity|].
    split; [|apply Hget; exact reads_back_a_list].
    vm_compute in Hset. injection Hset as <-.
    vm_compute. reflexivity.
Defined.

(** C1, as stated, fails: after two writes to one slot, the second of
    the tuple [(1, 2)] in JSON mode, one record remains, and [get_one]
    with the exact [execution_date] returns the list [[1, 2]], which is
    not the value supplied to the second write. *)
Lemma last_write_not_returned :
  let writes := [XCom.mkWrite false 1 one; XCom.mkWrite false 2 a_tuple] in
  let w' := after (set_all "a" 7 "t1" "d1" writes) (fresh SQLite) in
  fst (set_all "a" 7 "t1" "d1" writes (fresh SQLite)) = Ok tt
  /\ List.length (filter (same_slot "a" 7 "t1" "d1") (table (session w')))
     = 1%nat
  /\ fst (get_one false 7 (Some "a") (Some "t1") (Some "d1") false w')
     = Ok a_list
  /\ py_eq a_list a_tuple = false
  /\ fst (get_one false 7 (Some "a") (Some "t1") (Some "d1") false w')
     <> Ok a_tuple.
Proof.
  repeat split; try (vm_compute; reflexivity).
  vm_compute. discriminate.
Qed.

(** The record written with pickling enabled, read with pickling
    disabled: [init_on_load] recovers [1], [get_one] logs and raises. *)
Lemma legacy_payload_after_switch_witness :
  init_on_load false pickled_row = Ok pickled_record
  /\ get_one false 7 (Some "a") (Some "t1") (Some "d1") false pickled
     = (Raise (UnicodeDecodeError
                 "'utf-8' codec can't decode byte: invalid start byte"),
        mkWorld (session pickled) [(ERROR, could_not_deserialize)]).
Proof.
  destruct (legacy_payload_after_switch (py := CPython.runtime)
              one pickle_of_one
              (UnicodeDecodeError
                 "'utf-8' codec can't decode byte: invalid start byte")
              pickled_row 7 (Some "a") (Some "t1") (Some "d1") false []
              pickled)
    as [Hload Hget].
  - vm_compute; reflexivity.
  - vm_compute; reflexivity.
  - vm_compute; reflexivity.
  - reflexivity.
  - reflexivity.
  - split; [exact Hload | apply Hget; vm_compute; reflexivity].
Defined.

(** C2, as stated, fails: a value written by [set] with pickling enabled
    is not what [get_one] returns once pickling is disabled; [get_one]
    raises the decode error. *)
Lemma get_one_no_fallback :
  fst (XCom.set true 1 "a" one 7 "t1" "d1" (fresh SQLite)) = Ok tt
  /\ fst (get_one false 7 (Some "a") (Some "t1") (Some "d1") false pickled)
     = Raise (UnicodeDecodeError
                "'utf-8' codec can't decode byte: invalid start byte")
  /\ fst (get_one false 7 (Some "a") (Some "t1") (Some "d1") false pickled)
     <> Ok one.
Proof.
  split; [vm_compute; reflexivity|].
  split; [vm_compute; reflexivity|].
  vm_compute. discriminate.
Qed.

(** [XCom.set(key="a", value=b"ab", ...)] with pickling disabled:
    [json.dumps] raises [TypeError], [set] raises it and the log stays
    empty. *)
Lemma set_unlogged_encode_error_witness :
  XCom.set false 2 "a" some_bytes 7 "t1" "d1" (fresh SQLite)
  = (Raise (TypeError "Object of type bytes is not JSON serializable"),
     mkWorld (expunge_all (session (fresh SQLite))) []).
Proof.
  apply (set_unlogged_encode_error (py := CPython.runtime) 2 "a" some_bytes 7 "t1" "d1"
           (TypeError "Object of type bytes is not JSON serializable")
           (fresh SQLite)).
  - vm_compute; reflexivity.
  - reflexivity.
Defined.

(** Two records of one run: [get_one] returns the one written last, and
    [get_many] returns the two, that one first. *)
Lemma read_order_witness :
  get_one false 7 None None None false two_tasks = (Ok two, two_tasks)
  /\ get_many false 7 None None None false 100 two_tasks
     = (Ok [task2_record; task1_record], two_tasks)
  /\ StronglySorted precedes [task2_record; task1_record].
Proof.
  pose proof (read_order false 7 None None None None None false 100
                         two_tasks) as H.
  cbv zeta in H.
  destruct H as (_ & _ & Hone & _ & _ & _ & _ & Hmany & Hobjs).
  assert (E : get_many false 7 None None None false 100 two_tasks
              = (Ok [task2_record; task1_record], two_tasks)).
  { rewrite Hmany. vm_compute. reflexivity. }
  split; [rewrite Hone; vm_compute; reflexivity|].
  split; [exact E|].
  apply (Hobjs [task2_record; task1_record]). rewrite E. reflexivity.
Defined.


(** A list goes through JSON and back. *)
Lemma round_trip_witness :
  decode false json_1_2 (fresh SQLite) = (Ok a_list, fresh SQLite)
  /\ (value (mkXCom 1 "a" json_1_2 1 7 "t1" "d1") = json_1_2 ->
      init_on_load false (mkXCom 1 "a" json_1_2 1 7 "t1" "d1")
      = Ok (with_value (mkXCom 1 "a" json_1_2 1 7 "t1" "d1") a_list)).
Proof.
  apply (round_trip (py := CPython.runtime) false a_list json_1_2 (fresh SQLite) (fresh SQLite)
                    (mkXCom 1 "a" json_1_2 1 7 "t1" "d1")).
  - exact reads_back_a_list.
  - vm_compute; reflexivity.
Defined.

(** C6, as stated, fails: the tuple [(1, 2)] is encodable in JSON mode,
    and what decoding its encoding yields is the list [[1, 2]], which is
    not equal to it; so [get_one] after [set] returns the list. *)
Lemma round_trip_tuple :
  fst (encode false a_tuple (fresh SQLite)) = Ok json_1_2
  /\ fst (decode false json_1_2 (fresh SQLite)) = Ok a_list
  /\ fst (get_one false 7 (Some "a") (Some "t1") (Some "d1") false
            (after (XCom.set false 1 "a" a_tuple 7 "t1" "d1")
                   (fresh SQLite)))
     = Ok a_list
  /\ py_eq a_list a_tuple = false
  /\ a_list <> a_tuple.
Proof.
  repeat split; try (vm_compute; reflexivity).
  discriminate.
Qed.

(** A [set] that cannot encode leaves the stored record where it is. *)
Lemma set_encode_error_no_mutation_witness :
  fst (XCom.set false 2 "a" some_bytes 7 "t1" "d1" pickled)
  = Raise (TypeError "Object of type bytes is not JSON serializable")
  /\ table (session (snd (XCom.set false 2 "a" some_bytes 7 "t1" "d1"
                                   pickled)))
     = table (session pickled)
  /\ txn (session (snd (XCom.set false 2 "a" some_bytes 7 "t1" "d1"
                                 pickled)))
     = txn (session pickled)
  /\ next_id (session (snd (XCom.set false 2 "a" some_bytes 7 "t1" "d1"
                                     pickled)))
     = next_id (session pickled).
Proof.
  apply (set_encode_error_no_mutation (py := CPython.runtime) false 2 "a" some_bytes 7 "t1" "d1"
           (TypeError "Object of type bytes is not JSON serializable")
           pickled).
  vm_compute; reflexivity.
Defined.

(** [delete([record, "not-a-record"])]: a [TypeError] naming [str], and
    the record is still stored. *)
Lemma delete_type_error_no_deletion_witness :
  fst (delete 3 (iterable [an_xcom pickled_record; an_object "str"]) pickled)
  = Raise (TypeError "Expected XCom; received str")
  /\ table (session (snd (delete 3 (iterable [an_xcom pickled_record;
                                               an_object "str"]) pickled)))
     = [pickled_row].
Proof.
  destruct (delete_type_error_no_deletion (py := CPython.runtime) 3
              [an_xcom pickled_record; an_object "str"] "str" pickled)
    as (c & Hc & _ & Hraise & Htable & _).
  - right. left. reflexivity.
  - vm_compute in Hc. injection Hc as <-.
    split; [exact Hraise | exact Htable].
Defined.

(** [limit=2] against five matching records: the two most recent. *)
Lemma get_many_limit_witness :
  fst (get_many false 5 (Some "a") None None true 2 five_runs)
  = Ok [mkXCom 5 "a" (PyInt 5) 5 5 "t1" "d1";
        mkXCom 4 "a" (PyInt 4) 4 4 "t1" "d1"].
Proof.
  destruct (get_many_limit false 5 (Some "a") None None true 2 five_runs)
    as (_ & _ & Hnonneg & _).
  destruct Hnonneg as [Hget _]; [lia|].
  rewrite Hget. vm_compute. reflexivity.
Defined.

(** C9, as stated, fails: on SQLite, [limit=-1] against the five
    matching records returns the five of them, not an empty result; on
    PostgreSQL the call raises. *)
Lemma get_many_negative_limit :
  match fst (get_many false 5 (Some "a") None None true (-1) five_runs) with
  | Ok objs => map id objs = [5; 4; 3; 2; 1]
  | Raise _ => False
  end
  /\ fst (get_many false 5 (Some "a") None None true (-1) five_runs) <> Ok []
  /\ fst (get_many false 5 (Some "a") None None true (-1)
                   (five_runs_on PostgreSQL))
     = Raise (DatabaseError "LIMIT must not be negative").
Proof.
  split; [vm_compute; reflexivity|].
  split; [vm_compute; discriminate|].
  vm_compute. reflexivity.
Qed.

(** [key=""] reads as no key at all. *)
Lemma falsy_filter_is_omitted_witness :
  get_one false 7 (Some "") None None false
  = get_one false 7 None None None false.
Proof.
  destruct (falsy_filter_is_omitted false 7 (Some "") None None None None
                                    false 100)
    as [Hkey _].
  destruct (Hkey eq_refl) as [Hone _]. exact Hone.
Defined.


(* ================================================================== *)
(** * Further properties of the methods *)
(* ================================================================== *)

Section Further.

Context {py : Runtime} {db : Engine}.

(** ** Lists *)

Lemma filter_twice {A : Type} (f : A -> bool) (l : list A) :
  filter f (filter f l) = filter f l.
Proof.
  induction l as [|a l IH]; simpl.
  - reflexivity.
  - destruct (f a) eqn:E; simpl; [rewrite E, IH|]; auto.
Qed.

Lemma filter_nothing {A : Type} (f : A -> bool) (l : list A) :
  (forall x, In x l -> f x = false) -> filter f l = [].
Proof.
  induction l as [|a l IH]; simpl; intros H.
  - reflexivity.
  - rewrite (H a) by (left; reflexivity). apply IH.
    intros x Hx. apply H. right. exact Hx.
Qed.

Lemma rmap_Forall2 {A B : Type} (f : A -> result B) (l : list A)
    (ys : list B) :
  rmap f l = Ok ys -> Forall2 (fun a y => f a = Ok y) l ys.
Proof.
  revert ys. induction l as [|a l IH]; simpl; intros ys H.
  - injection H as <-. constructor.
  - destruct (f a) as [y|] eqn:Ey; [|discriminate].
    destruct (rmap f l) as [ys'|]; [|discriminate].
    injection H as <-. constructor; [exact Ey | apply IH; reflexivity].
Qed.

Lemma rmap_firstn {A B : Type} (f : A -> result B) (n : nat) (l : list A)
    (ys : list B) :
  rmap f l = Ok ys -> rmap f (firstn n l) = Ok (firstn n ys).
Proof.
  revert l ys. induction n as [|n IH]; intros l ys H; simpl.
  - reflexivity.
  - destruct l as [|a l]; simpl in *.
    + injection H as <-. reflexivity.
    + destruct (f a) as [y|]; [|discriminate].
      destruct (rmap f l) as [ys'|] eqn:E; [|discriminate].
      injection H as <-. simpl. rewrite (IH l ys' E). reflexivity.
Qed.

Lemma rmap_all_ok {A B : Type} (f : A -> result B) (l : list A) :
  Forall (fun a => exists y, f a = Ok y) l -> exists ys, rmap f l = Ok ys.
Proof.
  induction 1 as [|a l [y Hy] _ [ys IH]]; simpl.
  - exists []. reflexivity.
  - rewrite Hy, IH. exists (y :: ys). reflexivity.
Qed.

(** ** [set] and the rest of the table *)

Lemma set_returns (p : bool) (now : Z) (k : string) (v : object) (e : Z)
    (t d : string) (w : World) :
  fst (set p now k v e t d w) = Ok tt -> exists b, encoded p v = Ok b.
Proof.
  destruct (encoded p v) as [b|x] eqn:E.
  - intros _. exists b. reflexivity.
  - rewrite (set_raise _ _ _ _ _ _ _ _ _ E). discriminate.
Qed.

(** X1. A [set] that returns has removed and inserted nothing outside
    its natural key: the committed rows of the other keys are the rows
    the session saw before the call, in the same order. *)
Theorem set_keeps_other_slots :
  forall (p : bool) (now : Z) (k : string) (v : object) (e : Z)
         (t d : string) (w : World),
    fst (set p now k v e t d w) = Ok tt ->
    filter (fun r => negb (same_slot k e t d r))
           (table (session (snd (set p now k v e t d w))))
    = filter (fun r => negb (same_slot k e t d r)) (txn (session w)).
Proof.
  intros p now k v e t d w H.
  destruct (set_returns _ _ _ _ _ _ _ _ H) as [b Hb].
  rewrite (set_ok _ _ _ _ _ _ _ b w Hb). simpl.
  rewrite filter_app, filter_twice. simpl.
  rewrite same_slot_refl. simpl. apply app_nil_r.
Qed.

(** X2. Two [set] calls on one natural key leave the table the second
    call alone would have left, but for the [id] of the record: the
    first write is gone without a trace other than the [id] it used. On
    SQLite, which gives the [id] of the deleted record out again, the
    two tables are the same. *)
Theorem set_twice :
  forall (p1 p2 : bool) (now1 now2 : Z) (k : string) (v1 v2 : object)
         (e : Z) (t d : string) (b2 : bytes) (w : World),
    fst (set p1 now1 k v1 e t d w) = Ok tt ->
    encoded p2 v2 = Ok b2 ->
    let others :=
      filter (fun r => negb (same_slot k e t d r)) (txn (session w)) in
    exists i j : Z,
      table (session (snd (set p2 now2 k v2 e t d
                               (snd (set p1 now1 k v1 e t d w)))))
      = others ++ [mkXCom i k b2 now2 e t d]
      /\ table (session (snd (set p2 now2 k v2 e t d w)))
         = others ++ [mkXCom j k b2 now2 e t d]
      /\ (dialect (session w) = SQLite -> i = j).
Proof.
  intros p1 p2 now1 now2 k v1 v2 e t d b2 w H1 H2 others.
  destruct (set_returns _ _ _ _ _ _ _ _ H1) as [b1 Hb1].
  rewrite (set_ok _ _ _ _ _ _ _ b1 w Hb1).
  rewrite !(set_ok _ _ _ _ _ _ _ b2 _ H2). simpl.
  fold others.
  assert (E : filter (fun r => negb (same_slot k e t d r))
                (others
                 ++ [mkXCom (fst (assign_id (dialect (session w)) others
                                            (next_id (session w))))
                            k b1 now1 e t d])
              = others).
  { unfold others. rewrite filter_app, filter_twice. simpl.
    rewrite same_slot_refl. simpl. apply app_nil_r. }
  rewrite E.
  eexists. eexists. split; [reflexivity|]. split; [reflexivity|].
  intros ->. reflexivity.
Qed.

Lemma same_slot_other (k1 k2 : string) (e1 e2 : Z) (t1 t2 d1 d2 : string)
    (i : Z) (b : bytes) (now : Z) :
  (k1, e1, t1, d1) <> (k2, e2, t2, d2) ->
  same_slot k2 e2 t2 d2 (mkXCom i k1 b now e1 t1 d1) = false.
Proof.
  intros H. destruct (same_slot _ _ _ _ _) eqn:E; [|reflexivity].
  unfold same_slot in E. simpl in E.
  apply andb_true_iff in E. destruct E as [E Hd].
  apply andb_true_iff in E. destruct E as [E Ht].
  apply andb_true_iff in E. destruct E as [Hk He].
  apply String.eqb_eq in Hk, Ht, Hd. apply Z.eqb_eq in He.
  subst. contradiction H. reflexivity.
Qed.

(** X3. Writing another natural key does not disturb a key written
    before: after [set] on [(k1, e1, t1, d1)] and then on a different
    [(k2, e2, t2, d2)], the first key still has its one record, and
    [get_one] on it decodes the first payload (and returns the first
    value, the libraries reading it back). *)
Theorem set_other_slot :
  forall (p1 p2 p : bool) (now1 now2 : Z) (k1 k2 : string) (v1 v2 : object)
         (e1 e2 : Z) (t1 t2 d1 d2 : string) (b1 : bytes) (w : World),
    truthy_str k1 = true -> truthy_str t1 = true -> truthy_str d1 = true ->
    (k1, e1, t1, d1) <> (k2, e2, t2, d2) ->
    encoded p1 v1 = Ok b1 ->
    fst (set p2 now2 k2 v2 e2 t2 d2 (snd (set p1 now1 k1 v1 e1 t1 d1 w)))
    = Ok tt ->
    let w2 := snd (set p2 now2 k2 v2 e2 t2 d2
                       (snd (set p1 now1 k1 v1 e1 t1 d1 w))) in
    (exists i : Z,
       filter (same_slot k1 e1 t1 d1) (table (session w2))
       = [mkXCom i k1 b1 now1 e1 t1 d1])
    /\ get_one p e1 (Some k1) (Some t1) (Some d1) false w2
       = decode p b1 w2
    /\ (p = p1 -> reads_back p1 v1 ->
        get_one p e1 (Some k1) (Some t1) (Some d1) false w2 = (Ok v1, w2)).
Proof.
  intros p1 p2 p now1 now2 k1 k2 v1 v2 e1 e2 t1 t2 d1 d2 b1 w
         Hk Ht Hd Hne Hb1 H2 w2.
  destruct (set_returns _ _ _ _ _ _ _ _ H2) as [b2 Hb2].
  assert (Hneq : (k2, e2, t2, d2) <> (k1, e1, t1, d1)) by congruence.
  assert (Hrows :
    exists i : Z,
      filter (same_slot k1 e1 t1 d1) (txn (session w2))
      = [mkXCom i k1 b1 now1 e1 t1 d1]).
  { unfold w2.
    rewrite (set_ok _ _ _ _ _ _ _ b1 w Hb1).
    rewrite (set_ok _ _ _ _ _ _ _ b2 _ Hb2). simpl.
    eexists.
    rewrite !filter_app. simpl.
    rewrite (same_slot_other k1 k2 e1 e2 t1 t2 d1 d2) by exact Hne.
    simpl. rewrite same_slot_refl.
    rewrite (same_slot_other k2 k1 e2 e1 t2 t1 d2 d1) by exact Hneq.
    rewrite (filter_nothing (same_slot k1 e1 t1 d1)).
    - reflexivity.
    - intros x Hx. apply filter_In in Hx. destruct Hx as [Hx _].
      apply filter_In in Hx. destruct Hx as [_ Hx].
      apply negb_true_iff in Hx. exact Hx. }
  assert (Htab : table (session w2) = txn (session w2)).
  { unfold w2. rewrite (set_ok _ _ _ _ _ _ _ b1 w Hb1).
    rewrite (set_ok _ _ _ _ _ _ _ b2 _ Hb2). reflexivity. }
  destruct Hrows as [i Hrows].
  assert (Hget : get_one p e1 (Some k1) (Some t1) (Some d1) false w2
                 = decode p b1 w2).
  { apply (get_one_exact p k1 e1 t1 d1 w2 _ Hk Ht Hd Hrows). }
  split; [exists i; rewrite Htab; exact Hrows|].
  split; [exact Hget|].
  intros -> Hr. rewrite Hget, decode_spec.
  rewrite (reads_back_decoded _ _ _ Hr Hb1). reflexivity.
Qed.

(** X4. [set] begins with [session.expunge_all()]: what the caller had
    pending in the session (objects added or marked for deletion and not
    flushed) plays no part in the call and is gone after it, whether the
    call returns or raises. *)
Theorem set_discards_pending :
  forall (p : bool) (now : Z) (k : string) (v : object) (e : Z)
         (t d : string) (w : World),
    new (session (snd (set p now k v e t d w))) = []
    /\ deleted (session (snd (set p now k v e t d w))) = []
    /\ set p now k v e t d w
       = set p now k v e t d (mkWorld (expunge_all (session w)) (log w)).
Proof.
  intros p now k v e t d w.
  destruct (encoded p v) as [b|x] eqn:E.
  - rewrite !(set_ok _ _ _ _ _ _ _ b _ E). simpl. repeat split.
  - rewrite !(set_raise _ _ _ _ _ _ _ _ _ E). simpl. repeat split.
Qed.

(** ** Reads *)

(** X5. [get_one] returns [None], with nothing logged and nothing
    changed, when no row can match: no row of the wanted run (or of an
    earlier run, with [include_prior_dates]), or no row with the wanted
    [key]. *)
Theorem get_one_absent :
  forall (p : bool) (e : Z) (k t d : option string) (ipd : bool) (w : World),
    (Forall (fun r => if ipd then e < execution_date r
                      else execution_date r <> e)
            (txn (session w))
     \/ (truthy k = true
         /\ Forall (fun r => Some (key r) <> k) (txn (session w)))) ->
    get_one p e k t d ipd w = (Ok None_, w).
Proof.
  intros p e k t d ipd w H.
  rewrite get_one_unfold. unfold get_one_query.
  assert (E : get_one_candidates e k t d ipd (session w) = []).
  { destruct (get_one_candidates e k t d ipd (session w)) as [|r l] eqn:E;
      [reflexivity|exfalso].
    assert (Hin : In r (get_one_candidates e k t d ipd (session w)))
      by (rewrite E; left; reflexivity).
    unfold get_one_candidates in Hin. apply filter_In in Hin.
    destruct Hin as [Hin Hf].
    rewrite get_one_filters_app, !and_app, !andb_true_iff in Hf.
    destruct Hf as (Hk & _ & _ & Hdate).
    apply and_date in Hdate.
    pose proof (proj1 (and_append_if_eq k key_eq key r
                                        (fun _ => eq_refl)) Hk) as Hk'.
    destruct H as [H|[Hkt H]]; rewrite Forall_forall in H;
      specialize (H r Hin).
    - destruct ipd; lia.
    - apply H. symmetry. apply Hk', Hkt. }
  rewrite E, (Permutation_nil (arrange_permutation _ [])). reflexivity.
Qed.

(** ** [include_prior_dates] *)

(** X7. When records of exactly the wanted run match the filters, and no
    two of them have the same [timestamp], [include_prior_dates] makes
    no difference to [get_one]: the earlier runs it lets in all stand
    behind the records of the wanted run. *)
Theorem prior_dates_exact_run :
  forall (p : bool) (e : Z) (k t d : option string) (w : World),
    let same_run := get_one_candidates e k t d false (session w) in
    same_run <> [] ->
    (forall r r',
       In r same_run -> In r' same_run ->
       timestamp r = timestamp r' -> r = r') ->
    get_one p e k t d true w = get_one p e k t d false w.
Proof.
  intros p e k t d w same_run Hne Hties.
  rewrite !get_one_unfold.
  pose proof (get_one_query_sorted e k t d true (session w)) as Hst.
  pose proof (get_one_query_sorted e k t d false (session w)) as Hsf.
  assert (Hsub : forall r,
             In r same_run ->
             In r (get_one_query e k t d true (session w))).
  { intros r Hr. apply get_one_query_In, get_one_candidates_In.
    apply get_one_candidates_In in Hr. destruct Hr as (H1 & H2 & H3).
    split; [exact H1|]. split; [lia | exact H3]. }
  assert (Hback : forall r,
             In r (get_one_query e k t d true (session w)) ->
             execution_date r <= e
             /\ (execution_date r = e -> In r same_run)).
  { intros r Hr. apply get_one_query_In, get_one_candidates_In in Hr.
    destruct Hr as (H1 & H2 & H3). split; [exact H2|].
    intros He. apply get_one_candidates_In.
    split; [exact H1|]. split; [exact He | exact H3]. }
  assert (Hrun : forall r, In r same_run -> execution_date r = e).
  { intros r Hr. apply get_one_candidates_In in Hr. apply Hr. }
  assert (Hf : forall r,
             In r (get_one_query e k t d false (session w)) <->
             In r same_run)
    by (intros r; apply get_one_query_In).
  destruct (get_one_query e k t d false (session w)) as [|hf rf].
  { exfalso. destruct same_run as [|r l]; [apply Hne; reflexivity|].
    apply (proj2 (Hf r)). left. reflexivity. }
  assert (Hhf : In hf same_run) by (apply Hf; left; reflexivity).
  destruct (get_one_query e k t d true (session w)) as [|ht rt].
  { exfalso. apply (Hsub hf Hhf). }
  pose proof (sorted_head_first ht hf rt Hst (Hsub hf Hhf)) as P1.
  destruct (Hback ht (or_introl eq_refl)) as [Hle Hin].
  pose proof (Hrun hf Hhf) as Hdf.
  assert (Hdt : execution_date ht = e) by (unfold precedes in P1; lia).
  specialize (Hin Hdt).
  pose proof (sorted_head_first hf ht rf Hsf (proj2 (Hf ht) Hin)) as P2.
  destruct (precedes_both ht hf P1 P2) as [_ Hts].
  rewrite (Hties ht hf Hin Hhf Hts). reflexivity.
Qed.

(** ** What [get_many] returns *)

Lemma limit_within (dl : Dialect) (n : Z) (rows out : list Row) :
  limit dl n rows = Ok out ->
  incl out rows
  /\ (0 <= n -> Z.of_nat (List.length out) <= n)
  /\ (List.length out <= List.length rows)%nat.
Proof.
  unfold limit. destruct (0 <=? n) eqn:E.
  - intros H. injection H as <-. apply Z.leb_le in E.
    split.
    { intros x Hx. rewrite <- (firstn_skipn (Z.to_nat n) rows).
      apply in_or_app. left. exact Hx. }
    split.
    + intros _. rewrite length_firstn. lia.
    + rewrite length_firstn. lia.
  - apply Z.leb_gt in E.
    destruct dl; intros H; try discriminate. injection H as <-.
    split; [apply incl_refl|]. split; [lia | lia].
Qed.

(** X8. [get_many] returns only what the query selects: every object of
    its result is the loading by [init_on_load] of a row that satisfies
    the filters, and there are no more objects than matching rows, nor,
    for a limit [n >= 0], than [n]. *)
Theorem get_many_sound :
  forall (p : bool) (e : Z) (k : option string) (ts ds : option ids)
         (ipd : bool) (n : Z) (w : World) (objs : list (XCom object)),
    fst (get_many p e k ts ds ipd n w) = Ok objs ->
    Forall (fun x =>
              exists r, In r (get_many_candidates e k ts ds ipd (session w))
                        /\ init_on_load p r = Ok x)
           objs
    /\ (List.length objs
        <= List.length (get_many_candidates e k ts ds ipd (session w)))%nat
    /\ (0 <= n -> Z.of_nat (List.length objs) <= n).
Proof.
  intros p e k ts ds ipd n w objs H.
  apply get_many_rows in H. destruct H as [rows [Hq Hl]].
  unfold get_many_query in Hq. apply limit_within in Hq.
  destruct Hq as (Hincl & Hn & Hlen).
  apply rmap_Forall2 in Hl.
  assert (Hsame : List.length objs = List.length rows)
    by (symmetry; eapply Forall2_length; exact Hl).
  split; [|split].
  - clear Hn Hlen Hsame. induction Hl as [|r x rows objs Hx _ IH];
      constructor.
    + exists r. split; [|exact Hx].
      apply (get_many_ordered_In e k ts ds ipd n), Hincl. left. reflexivity.
    + apply IH. intros y Hy. apply Hincl. right. exact Hy.
  - rewrite Hsame.
    rewrite (Permutation_length
               (get_many_ordered_perm e k ts ds ipd n (session w))).
    exact Hlen.
  - rewrite Hsame. exact Hn.
Qed.

(** Rows of which no two agree on both [execution_date] and [timestamp]
    have one order only. *)
Lemma sorted_permutation_unique (l1 l2 : list Row) :
  (forall r r',
     In r l1 -> In r' l1 ->
     execution_date r = execution_date r' -> timestamp r = timestamp r' ->
     r = r') ->
  StronglySorted precedes l1 -> StronglySorted precedes l2 ->
  Permutation l1 l2 -> l1 = l2.
Proof.
  revert l2. induction l1 as [|a l1 IH]; intros l2 Hties H1 H2 Hp.
  - apply Permutation_nil in Hp. symmetry. exact Hp.
  - destruct l2 as [|b l2].
    { apply Permutation_sym, Permutation_nil in Hp. discriminate. }
    assert (Ha : In a (b :: l2))
      by (apply (Permutation_in a Hp); left; reflexivity).
    assert (Hb : In b (a :: l1))
      by (apply (Permutation_in b (Permutation_sym Hp)); left; reflexivity).
    pose proof (sorted_head_first a b l1 H1 Hb) as P1.
    pose proof (sorted_head_first b a l2 H2 Ha) as P2.
    destruct (precedes_both a b P1 P2) as [He Ht].
    assert (E : a = b)
      by (apply Hties; [left; reflexivity | exact Hb | exact He | exact Ht]).
    subst b. f_equal. apply IH.
    + intros r r' Hr Hr'. apply Hties; right; assumption.
    + inversion H1; assumption.
    + inversion H2; assumption.
    + apply (Permutation_cons_inv Hp).
Qed.

(** X9. A smaller limit gives a prefix. When no two matching rows agree
    on both [execution_date] and [timestamp], and [get_many] returns
    [objs] for a limit [m], it returns the first [n] of [objs] for a
    limit [n] with [0 <= n <= m]. *)
Theorem get_many_prefix :
  forall (p : bool) (e : Z) (k : option string) (ts ds : option ids)
         (ipd : bool) (n m : Z) (w : World) (objs : list (XCom object)),
    0 <= n <= m ->
    (forall r r',
       In r (get_many_candidates e k ts ds ipd (session w)) ->
       In r' (get_many_candidates e k ts ds ipd (session w)) ->
       execution_date r = execution_date r' ->
       timestamp r = timestamp r' ->
       r = r') ->
    fst (get_many p e k ts ds ipd m w) = Ok objs ->
    get_many p e k ts ds ipd n w = (Ok (firstn (Z.to_nat n) objs), w).
Proof.
  intros p e k ts ds ipd n m w objs Hn Hties H.
  assert (E : get_many_ordered e k ts ds ipd n (session w)
              = get_many_ordered e k ts ds ipd m (session w)).
  { apply sorted_permutation_unique.
    - intros r r' Hr Hr'.
      apply Hties; eapply get_many_ordered_In; eassumption.
    - apply get_many_ordered_sorted.
    - apply get_many_ordered_sorted.
    - eapply Permutation_trans;
        [apply Permutation_sym, get_many_ordered_perm
        | apply get_many_ordered_perm]. }
  rewrite get_many_unfold in *. rewrite E.
  rewrite limit_nonneg in * by lia. simpl in *.
  rewrite <- (rmap_firstn _ (Z.to_nat n) _ _ H).
  rewrite firstn_firstn.
  replace (Nat.min (Z.to_nat n) (Z.to_nat m)) with (Z.to_nat n) by lia.
  reflexivity.
Qed.

(** ** [get_one], [get_many] and [init_on_load] together *)

Lemma caught_by_init_on_load (x : exn) :
  isinstance_UnicodeEncodeError x || isinstance_ValueError x
  = isinstance_ValueError x.
Proof. destruct x; reflexivity. Qed.

Lemma init_on_load_decoded (p : bool) (r : Row) (v : object) :
  decoded p (value r) = Ok v -> init_on_load p r = Ok (with_value r v).
Proof.
  unfold decoded, init_on_load. destruct p; intros ->; reflexivity.
Qed.

Lemma single_ids_candidates (e : Z) (k t d : option string) (ipd : bool)
    (s : Session) :
  get_many_candidates e k (option_map one_id t) (option_map one_id d) ipd s
  = get_one_candidates e k t d ipd s.
Proof.
  unfold get_many_candidates, get_one_candidates.
  apply filter_ext. intros r.
  rewrite get_many_filters_app, get_one_filters_app, !and_app.
  f_equal. f_equal; [|f_equal].
  - destruct t as [x|]; simpl; [|reflexivity].
    unfold append_if. simpl. destruct (truthy_str x); [|reflexivity].
    unfold and_. simpl. rewrite orb_false_r. reflexivity.
  - destruct d as [x|]; simpl; [|reflexivity].
    unfold append_if. simpl. destruct (truthy_str x); [|reflexivity].
    unfold and_. simpl. rewrite orb_false_r. reflexivity.
Qed.

(** X11. With pickling disabled [get_many] reads a table that mixes the
    two formats: if every row carries a payload that decodes as JSON, or
    one on which the JSON decoding raises a [ValueError] and that
    unpickles, then for a limit [n >= 0] the call returns, with one
    object for each of the first [n] matching rows, in their order. *)
Theorem get_many_mixed_formats :
  forall (e : Z) (k : option string) (ts ds : option ids) (ipd : bool)
         (n : Z) (w : World),
    0 <= n ->
    Forall (fun r =>
              (exists v, json_decode (value r) = Ok v)
              \/ (exists x v,
                    json_decode (value r) = Raise x
                    /\ isinstance_ValueError x = true
                    /\ Py.pickle_loads (value r) = Ok v))
           (txn (session w)) ->
    let matching := get_many_ordered e k ts ds ipd n (session w) in
    Permutation (get_many_candidates e k ts ds ipd (session w)) matching
    /\ StronglySorted precedes matching
    /\ exists objs,
         get_many false e k ts ds ipd n w = (Ok objs, w)
         /\ map columns objs
            = map columns (firstn (Z.to_nat n) matching).
Proof.
  intros e k ts ds ipd n w Hn Hall matching.
  split; [apply get_many_ordered_perm|].
  split; [apply get_many_ordered_sorted|].
  rewrite get_many_unfold. fold matching.
  rewrite limit_nonneg by exact Hn.
  simpl.
  destruct (rmap_all_ok (init_on_load false)
              (firstn (Z.to_nat n) matching))
    as [objs Hobjs].
  - apply Forall_forall. intros r Hr.
    assert (Hin : In r (txn (session w))).
    { assert (H1 : In r matching).
      { rewrite <- (firstn_skipn (Z.to_nat n) matching).
        apply in_or_app. left. exact Hr. }
      apply (proj1 (get_many_ordered_In _ _ _ _ _ _ _ _)) in H1.
      unfold get_many_candidates in H1.
      apply (proj1 (filter_In _ _ _)) in H1. apply H1. }
    rewrite Forall_forall in Hall.
    destruct (Hall r Hin) as [[v Hv]|(x & v & Hx & Hvx & Hv)].
    + exists (with_value r v). apply (init_on_load_decoded false). exact Hv.
    + exists (with_value r v). unfold init_on_load, rtry.
      rewrite Hx. simpl. rewrite Hvx, orb_true_r, Hv. reflexivity.
  - exists objs. rewrite Hobjs. split; [reflexivity|].
    apply rmap_init_on_load_columns in Hobjs. exact Hobjs.
Qed.

(** X12. When [init_on_load] raises. With pickling enabled it raises
    what [pickle.loads] raises. With pickling disabled it raises either
    an exception of the JSON decoding that is not a [ValueError], or,
    the JSON decoding having raised a [ValueError], what [pickle.loads]
    raises on the same payload: the JSON error is then not what the
    caller sees. *)
Theorem init_on_load_raises :
  forall (r : Row) (y : exn),
    (init_on_load true r = Raise y <-> Py.pickle_loads (value r) = Raise y)
    /\ (init_on_load false r = Raise y <->
        (json_decode (value r) = Raise y /\ isinstance_ValueError y = false)
        \/ (exists x,
              json_decode (value r) = Raise x
              /\ isinstance_ValueError x = true
              /\ Py.pickle_loads (value r) = Raise y)).
Proof.
  intros r y. unfold init_on_load, rtry, rbind. split.
  - destruct (Py.pickle_loads (value r)); split; intros H;
      try discriminate; congruence.
  - destruct (json_decode (value r)) as [v|x] eqn:Ej.
    + split; [discriminate|].
      intros [[H _]|(x & H & _)]; discriminate.
    + rewrite caught_by_init_on_load.
      destruct (isinstance_ValueError x) eqn:Ex.
      * destruct (Py.pickle_loads (value r)) as [v|z] eqn:Ep.
        -- split; [discriminate|].
           intros [[H Hy]|(x' & _ & _ & H)]; [|discriminate].
           injection H as ->. congruence.
        -- split.
           ++ intros H. injection H as ->. right. exists x.
              repeat split; assumption.
           ++ intros [[H Hy]|(x' & _ & _ & H)].
              ** injection H as ->. congruence.
              ** injection H as ->. reflexivity.
      * split.
        -- intros H. injection H as ->. left. split; [reflexivity|exact Ex].
        -- intros [[H _]|(x' & H & Hx' & _)].
           ++ injection H as ->. reflexivity.
           ++ injection H as ->. congruence.
Qed.

(** ** [delete] *)

Lemma mem_id_In (i : Z) (l : list Z) : mem_id i l = true <-> In i l.
Proof.
  unfold mem_id. rewrite existsb_exists. split.
  - intros [x [Hx E]]. apply Z.eqb_eq in E. subst. exact Hx.
  - intros H. exists i. split; [exact H | apply Z.eqb_refl].
Qed.

(** The loop of [delete], whatever its outcome: the session has the
    marks of the elements that stand before the first stranger, and is
    otherwise what it was. *)
Lemma delete_loop_spec (l : list element) (w : World) :
  delete_loop l w
  = (match first_non_xcom l with
     | None => Ok tt
     | Some c => Raise (TypeError ("Expected XCom; received " ++ c)%string)
     end,
     mkWorld
       (mkSession (dialect (session w)) (table (session w))
                  (txn (session w)) (new (session w))
                  (deleted (session w) ++ marked l) (next_id (session w)))
       (log w)).
Proof.
  revert w. induction l as [|[x|c] l IH]; intros w; simpl.
  - rewrite app_nil_r. destruct w as [[] ?]. reflexivity.
  - unfold bind, on_session. rewrite IH. simpl.
    rewrite <- app_assoc. reflexivity.
  - rewrite app_nil_r. destruct w as [[] ?]. reflexivity.
Qed.

(** [delete] of [XCom] objects only, on a session with nothing
    pending. *)
Lemma delete_clean_session (now : Z) (l : list element) (w : World) :
  first_non_xcom l = None ->
  new (session w) = [] -> deleted (session w) = [] ->
  delete now (iterable l) w
  = (Ok tt,
     mkWorld
       (mkSession (dialect (session w))
          (filter (fun r => negb (mem_id (id r) (marked l)))
                  (txn (session w)))
          (filter (fun r => negb (mem_id (id r) (marked l)))
                  (txn (session w)))
          [] [] (next_id (session w)))
       (log w)).
Proof.
  intros Hl Hnew Hdel.
  unfold delete, bind. rewrite delete_loop_spec, Hl.
  unfold on_session, commit, flush. simpl.
  rewrite Hnew, Hdel. simpl. reflexivity.
Qed.

(** X13. [delete] of a batch of [XCom] objects, run on a session with
    nothing pending, returns and commits: the rows whose [id] is that of
    a given object are gone, every other row stays, in the same order,
    and nothing is left pending. A single [XCom] is the batch of that
    one object. *)
Theorem delete_removes_by_id :
  forall (now : Z) (l : list element) (w : World),
    first_non_xcom l = None ->
    new (session w) = [] -> deleted (session w) = [] ->
    let w' := snd (delete now (iterable l) w) in
    fst (delete now (iterable l) w) = Ok tt
    /\ table (session w')
       = filter (fun r => negb (mem_id (id r) (marked l))) (txn (session w))
    /\ (forall r, In r (table (session w')) <->
                  In r (txn (session w)) /\ ~ In (id r) (marked l))
    /\ txn (session w') = table (session w')
    /\ new (session w') = [] /\ deleted (session w') = []
    /\ (forall x, delete now (single x) w = delete now (iterable [an_xcom x]) w).
Proof.
  intros now l w Hl Hnew Hdel w'.
  unfold w'. rewrite (delete_clean_session now l w Hl Hnew Hdel). simpl.
  split; [reflexivity|]. split; [reflexivity|].
  split.
  { intros r. rewrite filter_In, negb_true_iff.
    rewrite <- mem_id_In. destruct (mem_id (id r) (marked l));
      intuition congruence. }
  repeat split; reflexivity.
Qed.

(** X14. A [delete] that raises on a stranger has already handed the
    [XCom] objects standing before it to [session.delete]: the session
    keeps them marked. Nothing is deleted by the call, but the next
    commit of that session deletes their rows. *)
Theorem delete_error_leaves_marks :
  forall (now now' : Z) (l : list element) (c : string) (w : World),
    first_non_xcom l = Some c ->
    let w' := snd (delete now (iterable l) w) in
    deleted (session w') = deleted (session w) ++ marked l
    /\ new (session w') = new (session w)
    /\ (new (session w) = [] -> deleted (session w) = [] ->
        table (commit now' (session w'))
        = filter (fun r => negb (mem_id (id r) (marked l)))
                 (txn (session w))).
Proof.
  intros now now' l c w Hl w'.
  assert (E : w' = mkWorld
                     (mkSession (dialect (session w)) (table (session w))
                        (txn (session w)) (new (session w))
                        (deleted (session w) ++ marked l)
                        (next_id (session w)))
                     (log w)).
  { unfold w', delete, bind. rewrite delete_loop_spec, Hl. reflexivity. }
  rewrite E. simpl.
  split; [reflexivity|]. split; [reflexivity|].
  intros Hnew Hdel. unfold flush. simpl.
  rewrite Hnew, Hdel. simpl. reflexivity.
Qed.

(** ** [set], then a read or a [delete] *)

(** After a [set] that encoded its value as [b], the slot holds the one
    new row, and nothing is pending. *)
Lemma set_slot_rows (p : bool) (now : Z) (k : string) (v : object) (e : Z)
    (t d : string) (b : bytes) (w : World) :
  encoded p v = Ok b ->
  let w1 := snd (set p now k v e t d w) in
  exists i : Z,
    filter (same_slot k e t d) (txn (session w1))
    = [mkXCom i k b now e t d]
    /\ txn (session w1)
       = filter (fun r => negb (same_slot k e t d r)) (txn (session w))
         ++ [mkXCom i k b now e t d]
    /\ table (session w1) = txn (session w1)
    /\ new (session w1) = [] /\ deleted (session w1) = []
    /\ log w1 = log w.
Proof.
  intros Hb w1. unfold w1. rewrite (set_ok _ _ _ _ _ _ _ b w Hb). simpl.
  eexists. split; [|repeat split].
  rewrite filter_app, filter_none. simpl.
  rewrite same_slot_refl. reflexivity.
Qed.

Lemma filter_swap {A : Type} (f g : A -> bool) (l : list A) :
  filter f (filter g l) = filter g (filter f l).
Proof.
  induction l as [|a l IH]; simpl; [reflexivity|].
  destruct (f a) eqn:Ef, (g a) eqn:Eg; simpl;
    rewrite ?Ef, ?Eg, IH; reflexivity.
Qed.

Lemma get_one_exact_none (p : bool) (k : string) (e : Z) (t d : string)
    (w : World) :
  truthy_str k = true -> truthy_str t = true -> truthy_str d = true ->
  filter (same_slot k e t d) (txn (session w)) = [] ->
  get_one p e (Some k) (Some t) (Some d) false w = (Ok None_, w).
Proof.
  intros Hk Ht Hd Hr. rewrite get_one_unfold.
  unfold get_one_query, get_one_candidates.
  rewrite (filter_ext _ (same_slot k e t d))
    by (intros r'; apply exact_filters_same_slot; assumption).
  rewrite Hr.
  rewrite (Permutation_nil (arrange_permutation _ [])).
  reflexivity.
Qed.

(** X15. Written, then deleted: after a [set] that returns, [delete] of
    the record that [set] inserted (the one with the [id] of the record
    the natural key now has) returns, no record of the natural key is
    left, and [get_one] on that key returns [None]. *)
Theorem set_then_delete :
  forall (p p' : bool) (now now' : Z) (k : string) (v : object) (e : Z)
         (t d : string) (x : XCom object) (w : World),
    truthy_str k = true -> truthy_str t = true -> truthy_str d = true ->
    fst (set p now k v e t d w) = Ok tt ->
    map id (filter (same_slot k e t d)
                   (table (session (snd (set p now k v e t d w)))))
    = [id x] ->
    let w2 := snd (delete now' (single x) (snd (set p now k v e t d w))) in
    fst (delete now' (single x) (snd (set p now k v e t d w))) = Ok tt
    /\ filter (same_slot k e t d) (table (session w2)) = []
    /\ get_one p' e (Some k) (Some t) (Some d) false w2 = (Ok None_, w2).
Proof.
  intros p p' now now' k v e t d x w Hk Ht Hd Hset Hid w2.
  destruct (set_returns _ _ _ _ _ _ _ _ Hset) as [b Hb].
  destruct (set_slot_rows p now k v e t d b w Hb)
    as (i & Hrows & _ & Htab & Hnew & Hdel & _).
  rewrite Htab, Hrows in Hid. simpl in Hid. injection Hid as Hid.
  pose proof (delete_clean_session now' [an_xcom x]
                (snd (set p now k v e t d w)) eq_refl Hnew Hdel) as E.
  change (delete now' (iterable [an_xcom x]) (snd (set p now k v e t d w)))
    with (delete now' (single x) (snd (set p now k v e t d w))) in E.
  assert (Hempty : filter (same_slot k e t d) (txn (session w2)) = []).
  { unfold w2. rewrite E. simpl. rewrite filter_swap, Hrows. simpl.
    rewrite Hid, Z.eqb_refl. reflexivity. }
  split; [rewrite E; reflexivity|].
  split.
  - unfold w2 in *. rewrite E in *. exact Hempty.
  - apply get_one_exact_none; assumption.
Qed.

(** X16. Written, then read through [get_many]: after a [set] that
    returns, with non-empty [key], [task_id] and [dag_id] and a value the
    libraries read back, [get_many] with that key, the task and the dag
    as single identifiers, the exact [execution_date] and a limit of at
    least 1 returns exactly one record: the record the natural key now
    has, its [timestamp] the instant of the [set], carrying the value
    written. *)
Theorem set_then_get_many :
  forall (p : bool) (now : Z) (k : string) (v : object) (e : Z)
         (t d : string) (n : Z) (w : World),
    truthy_str k = true -> truthy_str t = true -> truthy_str d = true ->
    fst (set p now k v e t d w) = Ok tt ->
    reads_back p v ->
    1 <= n ->
    let w1 := snd (set p now k v e t d w) in
    exists i : Z,
      get_many p e (Some k) (Some (one_id t)) (Some (one_id d)) false n w1
      = (Ok [mkXCom i k v now e t d], w1)
      /\ map id (filter (same_slot k e t d) (table (session w1))) = [i].
Proof.
  intros p now k v e t d n w Hk Ht Hd Hset Hr Hn w1.
  destruct (set_returns _ _ _ _ _ _ _ _ Hset) as [b Hb].
  destruct (set_slot_rows p now k v e t d b w Hb) as (i & Hrows & _ & Htab & _).
  fold w1 in Hrows, Htab.
  exists i. split; [|rewrite Htab, Hrows; reflexivity].
  rewrite get_many_unfold. unfold get_many_ordered.
  pose proof (single_ids_candidates e (Some k) (Some t) (Some d) false
                                    (session w1)) as Hc.
  simpl in Hc. rewrite Hc. unfold get_one_candidates.
  rewrite (filter_ext _ (same_slot k e t d))
    by (intros r'; apply exact_filters_same_slot; assumption).
  rewrite Hrows.
  rewrite (Permutation_length_1_inv (arrange_permutation _ [_])).
  rewrite limit_nonneg by lia. simpl.
  replace (Z.to_nat n) with (S (Z.to_nat (n - 1))) by lia. simpl.
  rewrite (init_on_load_decoded p _ v)
    by (simpl; apply reads_back_decoded; assumption).
  rewrite firstn_nil. reflexivity.
Qed.

(** X17. The last write of a run is what an open read returns. If the
    clock of a [set] that returns is later than the [timestamp] of every
    row of run [e] the session saw, then [get_one] for run [e], with any
    optional filters that the written [key], [task_id] and [dag_id]
    satisfy (the omitted ones included), decodes the payload just
    written, and returns the value written, the libraries reading it
    back. *)
Theorem latest_write_is_read :
  forall (p : bool) (now : Z) (k : string) (v : object) (e : Z)
         (t d : string) (fk ft fd : option string) (w : World),
    fst (set p now k v e t d w) = Ok tt ->
    Forall (fun r => execution_date r = e -> timestamp r < now)
           (txn (session w)) ->
    (truthy fk = true -> fk = Some k) ->
    (truthy ft = true -> ft = Some t) ->
    (truthy fd = true -> fd = Some d) ->
    let w1 := snd (set p now k v e t d w) in
    exists b,
      encoded p v = Ok b
      /\ get_one p e fk ft fd false w1 = decode p b w1
      /\ (reads_back p v -> get_one p e fk ft fd false w1 = (Ok v, w1)).
Proof.
  intros p now k v e t d fk ft fd w Hset Hold Hfk Hft Hfd w1.
  destruct (set_returns _ _ _ _ _ _ _ _ Hset) as [b Hb].
  exists b. split; [exact Hb|].
  destruct (set_slot_rows p now k v e t d b w Hb) as (i & _ & Htxn & _).
  fold w1 in Htxn.
  set (row := mkXCom i k b now e t d) in *.
  assert (Hrow : In row (get_one_candidates e fk ft fd false (session w1))).
  { apply (proj2 (get_one_candidates_In e fk ft fd false (session w1) row)).
    split; [rewrite Htxn; apply in_or_app; right; left; reflexivity|].
    split; [reflexivity|]. repeat split; assumption. }
  assert (Hget : get_one p e fk ft fd false w1 = decode p b w1).
  { rewrite get_one_unfold.
    pose proof (get_one_query_sorted e fk ft fd false (session w1)) as Hs.
    destruct (get_one_query e fk ft fd false (session w1))
      as [|h rest] eqn:E.
    { apply get_one_query_In in Hrow. rewrite E in Hrow. contradiction. }
    assert (Hh : In h (get_one_candidates e fk ft fd false (session w1))).
    { apply get_one_query_In. rewrite E. left. reflexivity. }
    assert (Hprec : precedes h row).
    { apply (sorted_head_first h row rest Hs).
      apply get_one_query_In in Hrow. rewrite E in Hrow. exact Hrow. }
    apply (proj1 (get_one_candidates_In e fk ft fd false (session w1) h))
      in Hh.
    destruct Hh as (Hin & Hdate & _).
    rewrite Htxn in Hin. apply in_app_or in Hin.
    destruct Hin as [Hin|[<-|[]]]; [exfalso | reflexivity].
    apply filter_In in Hin. destruct Hin as [Hin _].
    rewrite Forall_forall in Hold. specialize (Hold h Hin Hdate).
    unfold precedes in Hprec. simpl in Hprec. lia. }
  split; [exact Hget|].
  intros Hr. rewrite Hget, decode_spec.
  rewrite (reads_back_decoded _ _ _ Hr Hb). reflexivity.
Qed.

(** ** [None], and the log *)

(** X19. [get_one] cannot tell a stored [None] from no record: after a
    [set] of [None] that returns (the libraries reading [None] back),
    the natural key has its record, and [get_one] on it returns [None],
    the answer it gives when no row matches. *)
Theorem stored_none_reads_as_absent :
  forall (p : bool) (now : Z) (k : string) (e : Z) (t d : string) (w : World),
    truthy_str k = true -> truthy_str t = true -> truthy_str d = true ->
    fst (set p now k None_ e t d w) = Ok tt ->
    reads_back p None_ ->
    let w1 := snd (set p now k None_ e t d w) in
    filter (same_slot k e t d) (table (session w1)) <> []
    /\ get_one p e (Some k) (Some t) (Some d) false w1 = (Ok None_, w1)
    /\ (forall w0,
          filter (same_slot k e t d) (txn (session w0)) = [] ->
          fst (get_one p e (Some k) (Some t) (Some d) false w0)
          = fst (get_one p e (Some k) (Some t) (Some d) false w1)).
Proof.
  intros p now k e t d w Hk Ht Hd Hset Hr w1.
  destruct (set_returns _ _ _ _ _ _ _ _ Hset) as [b Hb].
  destruct (set_slot_rows p now k None_ e t d b w Hb)
    as (i & Hrows & _ & Htab & _).
  fold w1 in Hrows, Htab.
  assert (Hget : get_one p e (Some k) (Some t) (Some d) false w1
                 = (Ok None_, w1)).
  { rewrite (get_one_exact p k e t d w1 _ Hk Ht Hd Hrows). simpl.
    rewrite decode_spec, (reads_back_decoded _ _ _ Hr Hb). reflexivity. }
  split; [rewrite Htab, Hrows; discriminate|].
  split; [exact Hget|].
  intros w0 H0. rewrite Hget.
  rewrite (get_one_exact_none p k e t d w0 Hk Ht Hd H0). reflexivity.
Qed.

(** X20. What is logged. [set] logs one record, the advice at error
    level, exactly when pickling is disabled and the JSON encoding raises
    a [ValueError]; otherwise it leaves the log as it was, as [delete]
    and [get_many] always do. [get_one] logs one record, the advice on
    deserialization, when it raises a [ValueError] with pickling
    disabled, and nothing otherwise. *)
Theorem what_is_logged :
  forall (p : bool) (now : Z) (k : string) (v : object) (e : Z)
         (t d : string) (fk ft fd : option string) (ts ds : option ids)
         (ipd : bool) (n : Z) (xs : xcoms_arg) (w : World),
    log (snd (set p now k v e t d w))
    = (match encoded p v with
       | Raise x =>
           if negb p && isinstance_ValueError x
           then log w ++ [(ERROR, could_not_serialize)]
           else log w
       | Ok _ => log w
       end)
    /\ log (snd (delete now xs w)) = log w
    /\ log (snd (get_many p e fk ts ds ipd n w)) = log w
    /\ log (snd (get_one p e fk ft fd ipd w))
       = (match fst (get_one p e fk ft fd ipd w) with
          | Raise x =>
              if negb p && isinstance_ValueError x
              then log w ++ [(ERROR, could_not_deserialize)]
              else log w
          | Ok _ => log w
          end).
Proof.
  intros p now k v e t d fk ft fd ts ds ipd n xs w.
  split; [|split; [|split; [reflexivity|]]].
  - destruct (encoded p v) as [b|x] eqn:E.
    + rewrite (set_ok _ _ _ _ _ _ _ b w E). reflexivity.
    + rewrite (set_raise _ _ _ _ _ _ _ _ _ E). reflexivity.
  - unfold delete, bind. rewrite delete_loop_spec.
    destruct (first_non_xcom _); reflexivity.
  - rewrite get_one_unfold.
    destruct (get_one_query e fk ft fd ipd (session w)) as [|r l];
      [reflexivity|].
    rewrite decode_spec. destruct (decoded p (value r)) as [v'|x];
      [reflexivity|]. simpl.
    destruct (negb p && isinstance_ValueError x); reflexivity.
Qed.

End Further.

(** ** The further properties on concrete inputs *)

Lemma set_keeps_other_slots_witness :
  filter (fun r => negb (same_slot "b" 7 "t1" "d1" r))
         (table (session (snd (XCom.set false 2 "b" two 7 "t1" "d1"
                                        pickled))))
  = filter (fun r => negb (same_slot "b" 7 "t1" "d1" r))
           (txn (session pickled)).
Proof.
  apply (set_keeps_other_slots (py := CPython.runtime)
           false 2 "b" two 7 "t1" "d1" pickled).
  vm_compute. reflexivity.
Defined.

(** On SQLite the record written second has the [id] of the record it
    replaced: the table is the one the second write alone leaves. *)
Lemma set_twice_witness :
  table (session (snd (XCom.set false 2 "a" a_list 7 "t1" "d1"
                         (snd (XCom.set true 1 "a" one 7 "t1" "d1"
                                        (fresh SQLite))))))
  = [mkXCom 1 "a" json_1_2 2 7 "t1" "d1"]
  /\ table (session (snd (XCom.set false 2 "a" a_list 7 "t1" "d1"
                                   (fresh SQLite))))
     = [mkXCom 1 "a" json_1_2 2 7 "t1" "d1"].
Proof.
  assert (E : table (session (snd (XCom.set false 2 "a" a_list 7 "t1" "d1"
                                            (fresh SQLite))))
              = [mkXCom 1 "a" json_1_2 2 7 "t1" "d1"])
    by (vm_compute; reflexivity).
  destruct (set_twice (py := CPython.runtime)
              true false 1 2 "a" one a_list 7 "t1" "d1" json_1_2
              (fresh SQLite))
    as (i & j & H1 & H2 & H3).
  - vm_compute. reflexivity.
  - vm_compute. reflexivity.
  - split; [|exact E].
    rewrite H1, (H3 eq_refl), <- H2. exact E.
Defined.

Lemma set_other_slot_witness :
  filter (same_slot "a" 7 "t1" "d1") (table (session two_tasks))
  = [task1_row]
  /\ get_one false 7 (Some "a") (Some "t1") (Some "d1") false two_tasks
     = (Ok one, two_tasks).
Proof.
  assert (E : filter (same_slot "a" 7 "t1" "d1") (table (session two_tasks))
              = [task1_row])
    by (vm_compute; reflexivity).
  destruct (set_other_slot (py := CPython.runtime)
              false false false 1 2 "a" "a" one two 7 7 "t1" "t2" "d1" "d1"
              [x31] (fresh SQLite))
    as (_ & _ & Hget).
  - reflexivity.
  - reflexivity.
  - reflexivity.
  - discriminate.
  - vm_compute. reflexivity.
  - vm_compute. reflexivity.
  - split; [exact E|].
    apply Hget; [reflexivity|].
    intros s b Hs Hb.
    vm_compute in Hs. injection Hs as <-.
    vm_compute in Hb. injection Hb as <-.
    split; vm_compute; reflexivity.
Defined.

Lemma get_one_absent_witness :
  get_one false 9 (Some "a") None None false five_runs
  = (Ok PyNone, five_runs).
Proof.
  apply (get_one_absent (py := CPython.runtime)
           false 9 (Some "a") None None false five_runs).
  left. vm_compute. repeat constructor; lia.
Defined.

Lemma prior_dates_exact_run_witness :
  get_one false 5 (Some "a") None None true five_runs
  = get_one false 5 (Some "a") None None false five_runs.
Proof.
  assert (E : get_one_candidates 5 (Some "a") None None false
                                 (session five_runs)
              = [mkXCom 5 "a" [x35] 5 5 "t1" "d1"])
    by (vm_compute; reflexivity).
  apply (prior_dates_exact_run (py := CPython.runtime)
           false 5 (Some "a") None None five_runs).
  - rewrite E. discriminate.
  - rewrite E. intros r r' [<-|[]] [<-|[]] _. reflexivity.
Defined.

Lemma get_many_sound_witness :
  Forall (fun x =>
            exists r,
              In r (get_many_candidates 5 (Some "a") None None true
                                        (session five_runs))
              /\ init_on_load false r = Ok x)
         [run5_record; run4_record]
  /\ (List.length [run5_record; run4_record]
      <= List.length (get_many_candidates 5 (Some "a") None None true
                                          (session five_runs)))%nat
  /\ (0 <= 2 -> Z.of_nat (List.length [run5_record; run4_record]) <= 2).
Proof.
  apply (get_many_sound (py := CPython.runtime)
           false 5 (Some "a") None None true 2 five_runs
           [run5_record; run4_record]).
  vm_compute. reflexivity.
Defined.

Lemma get_many_prefix_witness :
  get_many false 5 (Some "a") None None true 1 five_runs
  = (Ok (firstn (Z.to_nat 1) [run5_record; run4_record]), five_runs).
Proof.
  assert (E : get_many_candidates 5 (Some "a") None None true
                                  (session five_runs)
              = [mkXCom 1 "a" [x31] 1 1 "t1" "d1";
                 mkXCom 2 "a" [x32] 2 2 "t1" "d1";
                 mkXCom 3 "a" [x33] 3 3 "t1" "d1";
                 mkXCom 4 "a" [x34] 4 4 "t1" "d1";
                 mkXCom 5 "a" [x35] 5 5 "t1" "d1"])
    by (vm_compute; reflexivity).
  apply (get_many_prefix (py := CPython.runtime)
           false 5 (Some "a") None None true 1 2 five_runs
           [run5_record; run4_record]).
  - lia.
  - rewrite E. intros r r' Hr Hr' _ Ht. simpl in Hr, Hr'.
    repeat (destruct Hr as [<-|Hr];
            [repeat (destruct Hr' as [<-|Hr'];
                     [first [reflexivity | simpl in Ht; discriminate Ht]|]);
             contradiction|]).
    contradiction.
  - vm_compute. reflexivity.
Defined.

Lemma get_many_mixed_formats_witness :
  exists objs,
    get_many false 7 None None None false 10 mixed = (Ok objs, mixed)
    /\ map columns objs
       = map columns
           (firstn (Z.to_nat 10)
              (get_many_ordered 7 None None None false 10 (session mixed))).
Proof.
  apply (get_many_mixed_formats (py := CPython.runtime)
           7 None None None false 10 mixed).
  - lia.
  - change (txn (session mixed)) with [pickled_row; json_row].
    constructor; [|constructor; [|constructor]].
    + right.
      exists (UnicodeDecodeError
                "'utf-8' codec can't decode byte: invalid start byte"), one.
      repeat split; vm_compute; reflexivity.
    + left. exists two. vm_compute. reflexivity.
Defined.

Lemma delete_removes_by_id_witness :
  fst (delete 3 (iterable [an_xcom task1_record]) two_tasks) = Ok tt
  /\ table (session (snd (delete 3 (iterable [an_xcom task1_record])
                                 two_tasks)))
     = [task2_row].
Proof.
  destruct (delete_removes_by_id (py := CPython.runtime)
              3 [an_xcom task1_record] two_tasks)
    as (Hok & Htable & _).
  - reflexivity.
  - reflexivity.
  - reflexivity.
  - split; [exact Hok|]. rewrite Htable. vm_compute. reflexivity.
Defined.

Lemma delete_error_leaves_marks_witness :
  deleted (session (snd (delete 3 (iterable [an_xcom task1_record;
                                              an_object "str";
                                              an_xcom task2_record])
                                two_tasks)))
  = [1]
  /\ table (commit 4 (session (snd (delete 3
                                      (iterable [an_xcom task1_record;
                                                 an_object "str";
                                                 an_xcom task2_record])
                                      two_tasks))))
     = [task2_row].
Proof.
  destruct (delete_error_leaves_marks (py := CPython.runtime)
              3 4 [an_xcom task1_record; an_object "str";
                   an_xcom task2_record] "str" two_tasks)
    as (Hmarks & _ & Hcommit).
  - reflexivity.
  - split; [exact Hmarks|].
    rewrite Hcommit by reflexivity. vm_compute. reflexivity.
Defined.

Lemma set_then_delete_witness :
  fst (delete 2 (single task1_record)
              (snd (XCom.set false 1 "a" one 7 "t1" "d1" (fresh SQLite))))
  = Ok tt
  /\ get_one false 7 (Some "a") (Some "t1") (Some "d1") false
       (snd (delete 2 (single task1_record)
                    (snd (XCom.set false 1 "a" one 7 "t1" "d1"
                                   (fresh SQLite)))))
     = (Ok PyNone,
        snd (delete 2 (single task1_record)
                    (snd (XCom.set false 1 "a" one 7 "t1" "d1"
                                   (fresh SQLite))))).
Proof.
  destruct (set_then_delete (py := CPython.runtime)
              false false 1 2 "a" one 7 "t1" "d1" task1_record
              (fresh SQLite))
    as (Hok & _ & Hget).
  - reflexivity.
  - reflexivity.
  - reflexivity.
  - vm_compute. reflexivity.
  - vm_compute. reflexivity.
  - split; [exact Hok | exact Hget].
Defined.

(** The record read back has the [id] of the record it replaced. *)
Lemma set_then_get_many_witness :
  get_many false 7 (Some "a") (Some (one_id "t1")) (Some (one_id "d1"))
           false 100
           (snd (XCom.set false 2 "a" a_list 7 "t1" "d1" pickled))
  = (Ok [mkXCom 1 "a" a_list 2 7 "t1" "d1"],
     snd (XCom.set false 2 "a" a_list 7 "t1" "d1" pickled)).
Proof.
  assert (E : map id
                (filter (same_slot "a" 7 "t1" "d1")
                   (table (session (snd (XCom.set false 2 "a" a_list 7
                                                  "t1" "d1" pickled)))))
              = [1])
    by (vm_compute; reflexivity).
  destruct (set_then_get_many (py := CPython.runtime)
              false 2 "a" a_list 7 "t1" "d1" 100 pickled)
    as (i & Hget & Hid).
  - reflexivity.
  - reflexivity.
  - reflexivity.
  - vm_compute. reflexivity.
  - exact reads_back_a_list.
  - lia.
  - rewrite E in Hid. injection Hid as <-. exact Hget.
Defined.

Lemma latest_write_is_read_witness :
  exists b,
    XCom.encoded false a_list = Ok b
    /\ get_one false 7 None None None false
         (snd (XCom.set false 3 "b" a_list 7 "t3" "d1" two_tasks))
       = decode false b
           (snd (XCom.set false 3 "b" a_list 7 "t3" "d1" two_tasks))
    /\ (reads_back false a_list ->
        get_one false 7 None None None false
          (snd (XCom.set false 3 "b" a_list 7 "t3" "d1" two_tasks))
        = (Ok a_list,
           snd (XCom.set false 3 "b" a_list 7 "t3" "d1" two_tasks))).
Proof.
  apply (latest_write_is_read (py := CPython.runtime)
           false 3 "b" a_list 7 "t3" "d1" None None None two_tasks).
  - vm_compute. reflexivity.
  - change (txn (session two_tasks)) with [task1_row; task2_row].
    repeat constructor; simpl; lia.
  - discriminate.
  - discriminate.
  - discriminate.
Defined.

Lemma reads_back_none : reads_back false PyNone.
Proof.
  intros s b Hs Hb.
  vm_compute in Hs. injection Hs as <-.
  vm_compute in Hb. injection Hb as <-.
  split; vm_compute; reflexivity.
Qed.

Lemma stored_none_reads_as_absent_witness :
  filter (same_slot "a" 7 "t1" "d1")
         (table (session (snd (XCom.set false 1 "a" PyNone 7 "t1" "d1"
                                        (fresh SQLite)))))
  <> []
  /\ get_one false 7 (Some "a") (Some "t1") (Some "d1") false
       (snd (XCom.set false 1 "a" PyNone 7 "t1" "d1" (fresh SQLite)))
     = (Ok PyNone,
        snd (XCom.set false 1 "a" PyNone 7 "t1" "d1" (fresh SQLite))).
Proof.
  destruct (stored_none_reads_as_absent (py := CPython.runtime)
              false 1 "a" 7 "t1" "d1" (fresh SQLite))
    as (Hrow & Hget & _).
  - reflexivity.
  - reflexivity.
  - reflexivity.
  - vm_compute. reflexivity.
  - exact reads_back_none.
  - split; [exact Hrow | exact Hget].
Defined.
